(** * edc-screening: the eligibility evaluator, embedded and verified

    Source files embedded here:
    - [edc_screening/screening_eligibility.py]: the criterion descriptor [FC]
      and the evaluator [ScreeningEligibility];
    - [edc_screening/gender_evaluator.py]: [GenderEvaluator].

    The evaluator is an object whose constructor mutates [self] and may raise;
    it is embedded as explicit state passing over a record of its attributes,
    inside a small state-and-exception monad.  Python dictionaries keep their
    insertion order and that order is observable (the reasons are joined with
    a pipe), so they are association lists with Python's update discipline. *)

From Stdlib Require Import String Ascii List ZArith Bool Lia DecimalString.
Import ListNotations.
Local Open Scope string_scope.
Local Open Scope Z_scope.

(* ===================================================================== *)
(** ** Python values *)
(* ===================================================================== *)

(** The scalar values a screening field holds: [None], booleans, integers
    and strings (the values of form fields and model columns). *)
Inductive pyval : Type :=
| PNone : pyval
| PBool : bool -> pyval
| PInt : Z -> pyval
| PStr : string -> pyval.

(** Python truthiness, [bool(v)]. *)
Definition truthy (v : pyval) : bool :=
  match v with
  | PNone => false
  | PBool b => b
  | PInt z => negb (z =? 0)
  | PStr s => negb (s =? "")%string
  end.

(** The integer a value counts as: [bool] is a subclass of [int]. *)
Definition as_int (v : pyval) : option Z :=
  match v with
  | PBool b => Some (if b then 1 else 0)
  | PInt z => Some z
  | _ => None
  end.

(** Python [==] on these values: numbers compare by value across [bool]
    and [int], strings by content, [None] only equals [None]. *)
Definition py_eq (a b : pyval) : bool :=
  match a, b with
  | PNone, PNone => true
  | PStr s, PStr t => (s =? t)%string
  | _, _ =>
      match as_int a, as_int b with
      | Some x, Some y => x =? y
      | _, _ => false
      end
  end.

(** [str(v)], as an f-string renders a value. *)
Definition py_str (v : pyval) : string :=
  match v with
  | PNone => "None"
  | PBool true => "True"
  | PBool false => "False"
  | PInt z => NilZero.string_of_int (Z.to_int z)
  | PStr s => s
  end.

(** Truthiness of an optional string ([None] and the empty string are
    falsy). *)
Definition truthy_str (o : option string) : bool :=
  match o with
  | None => false
  | Some s => negb (s =? "")%string
  end.

(* ===================================================================== *)
(** ** String methods (ASCII) *)
(* ===================================================================== *)

Definition is_upper (c : ascii) : bool :=
  let n := nat_of_ascii c in (65 <=? n)%nat && (n <=? 90)%nat.

Definition is_lower (c : ascii) : bool :=
  let n := nat_of_ascii c in (97 <=? n)%nat && (n <=? 122)%nat.

Definition to_upper (c : ascii) : ascii :=
  if is_lower c then ascii_of_nat (nat_of_ascii c - 32) else c.

Definition to_lower (c : ascii) : ascii :=
  if is_upper c then ascii_of_nat (nat_of_ascii c + 32) else c.

(** [str.title()]: a cased character is upper-cased when the character
    before it is not cased and lower-cased otherwise; every other character
    is kept.  [prev] says whether the previous character was cased. *)
Fixpoint title_from (prev : bool) (s : string) : string :=
  match s with
  | EmptyString => EmptyString
  | String c rest =>
      if is_upper c || is_lower c
      then String (if prev then to_lower c else to_upper c) (title_from true rest)
      else String c (title_from false rest)
  end.

Definition title (s : string) : string := title_from false s.

(** [str.replace(a, b)] for one-character [a] and [b]. *)
Fixpoint replace (a b : ascii) (s : string) : string :=
  match s with
  | EmptyString => EmptyString
  | String c rest => String (if Ascii.eqb c a then b else c) (replace a b rest)
  end.

(** ["|".join(l)] and friends. *)
Definition join (sep : string) (l : list string) : string := String.concat sep l.

(* ===================================================================== *)
(** ** Dictionaries *)
(* ===================================================================== *)

(** A [dict] with string keys, in insertion order. *)
Definition dict (V : Type) : Type := list (string * V).

Fixpoint dict_get {V} (k : string) (d : dict V) : option V :=
  match d with
  | [] => None
  | (k', v) :: rest => if (k' =? k)%string then Some v else dict_get k rest
  end.

(** [k in d]. *)
Definition dict_in {V} (k : string) (d : dict V) : bool :=
  match dict_get k d with Some _ => true | None => false end.

(** [d[k] = v], also [d.update({k: v})]: an existing key keeps its place
    and takes the new value, a new key goes last. *)
Fixpoint dict_set {V} (k : string) (v : V) (d : dict V) : dict V :=
  match d with
  | [] => [(k, v)]
  | (k', v') :: rest =>
      if (k' =? k)%string then (k, v) :: rest else (k', v') :: dict_set k v rest
  end.

(** [d.update(other)]: the entries of [other], set one by one in order. *)
Definition dict_update {V} (d other : dict V) : dict V :=
  fold_left (fun acc kv => dict_set (fst kv) (snd kv) acc) other d.

Definition dict_keys {V} (d : dict V) : list string := map fst d.
Definition dict_values {V} (d : dict V) : list V := map snd d.

(** [bool(d)]: a dictionary is truthy when it has an entry. *)
Definition dict_truthy {V} (d : dict V) : bool :=
  match d with [] => false | _ :: _ => true end.

(* ===================================================================== *)
(** ** Constants of [edc_constants] *)
(* ===================================================================== *)

(** Modelled from the spec: [edc_constants.constants] is an external package
    whose [YES], [NO], [TBD], [MALE] and [FEMALE] this repository imports.
    The spec gives the verdict defaults as yes/no/tbd and the accepted
    genders as "M" and "F".  The theorems on the evaluator hold for every
    choice of tokens; only the worked scenarios compute with these. *)
Definition YES : string := "Yes".
Definition NO : string := "No".
Definition TBD : string := "tbd".
Definition MALE : string := "M".
Definition FEMALE : string := "F".

(* ===================================================================== *)
(** ** The criterion descriptor [FC] *)
(* ===================================================================== *)

(** What [FC.value] may hold besides [None]:
    [Union[str, list, tuple, range]]. *)
Inductive accepted : Type :=
| AStr : string -> accepted
| AList : list pyval -> accepted
| ATuple : list pyval -> accepted
| ARange : Z -> Z -> Z -> accepted.   (* range(start, stop, step) *)

Record FC : Type := mkFC {
  value : option accepted;
  msg : option string;
  ignore_if_missing : bool;
  missing_value : option string
}.

(** [v in l] for a list or tuple [l]. *)
Definition py_in (v : pyval) (l : list pyval) : bool := existsb (py_eq v) l.

(** [z in range(start, stop, step)] for an integer [z].  Python refuses to
    build a range of step zero; here such a range has no member. *)
Definition range_contains (start stop step z : Z) : bool :=
  if 0 <? step then (start <=? z) && (z <? stop) && ((z - start) mod step =? 0)
  else if step <? 0 then (stop <? z) && (z <=? start) && ((z - start) mod step =? 0)
  else false.

(** [v in range(...)]: only numbers are members. *)
Definition py_in_range (v : pyval) (start stop step : Z) : bool :=
  match as_int v with
  | Some z => range_contains start stop step z
  | None => false
  end.

(** [bool(fc.value)]: [None], the empty string, the empty list or tuple and
    the empty range are falsy. *)
Definition truthy_accepted (a : option accepted) : bool :=
  match a with
  | None => false
  | Some (AStr s) => negb (s =? "")%string
  | Some (AList l) | Some (ATuple l) => match l with [] => false | _ => true end
  | Some (ARange start stop step) =>
      ((0 <? step) && (start <? stop)) || ((step <? 0) && (stop <? start))
  end.

(** The test of lines 175-178 (and again 181-184) on one value:
    [(type(fc.value) == str and v != fc.value) or
     (type(fc.value) in (list, tuple, range) and v not in fc.value)]. *)
Definition fails_criterion (a : accepted) (v : pyval) : bool :=
  match a with
  | AStr s => negb (py_eq v (PStr s))
  | AList l | ATuple l => negb (py_in v l)
  | ARange start stop step => negb (py_in_range v start stop step)
  end.

(* ===================================================================== *)
(** ** Exceptions *)
(* ===================================================================== *)

(** The two messages of [ScreeningEligibilityError] (lines 102 and 111). *)
Inductive eligibility_error : Type :=
| InvalidValue      (* "Invalid value. See attr `eligible`. ..." *)
| NotSet.           (* "Eligiblility or `reasons ineligible` not set. ..." *)

(** The two messages of [ScreeningEligibilityInvalidCombination]
    (lines 117 and 122). *)
Inductive invalid_combination : Type :=
| EligibleWithReasons
| NotEligibleWithoutReasons.

Inductive exn : Type :=
| AttributeError (obj attr : string)
| KeyError (key : string)
| TypeError
| ScreeningEligibilityError (why : eligibility_error)
| ScreeningEligibilityAttributeError (cls attr : string)
| ScreeningEligibilityModelAttributeError (model_cls attr : string)
| ScreeningEligibilityCleanedDataKeyError (key : string)
| ScreeningEligibilityInvalidCombination (why : invalid_combination)
| Exception (what : string).    (* whatever else a subclass hook raises *)

Inductive result (A : Type) : Type :=
| Ok : A -> result A
| Raise : exn -> result A.
Arguments Ok {A} _.
Arguments Raise {A} _.

(* ===================================================================== *)
(** ** The evaluator's state *)
(* ===================================================================== *)

(** The persisted record handed to the evaluator: its class name, its
    attributes, and how many times [save()] has been called on it. *)
Record model : Type := mkModel {
  model_class : string;
  model_fields : dict pyval;
  saves : nat
}.

(** [getattr(model_obj, name)]. *)
Definition model_getattr (m : model) (name : string) : result pyval :=
  match dict_get name (model_fields m) with
  | Some v => Ok v
  | None => Raise (AttributeError (model_class m) name)
  end.

(** [setattr(model_obj, name, v)]. *)
Definition model_setattr (name : string) (v : pyval) (m : model) : model :=
  mkModel (model_class m) (dict_set name v (model_fields m)) (saves m).

(** The class attributes of lines 60-67, each of which an instance may
    override. *)
Record labels : Type := mkLabels {
  eligible_display_label : string;
  eligible_fld_name : string;
  eligible_value_default : string;
  eligible_values_list : list string;
  ineligible_display_label : string;
  is_eligible_value : string;
  is_ineligible_value : string;
  reasons_ineligible_fld_name : string
}.

Definition default_labels : labels :=
  mkLabels "ELIGIBLE" "eligible" TBD [YES; NO; TBD] "INELIGIBLE" YES NO
           "reasons_ineligible".

(** The attributes of an evaluator instance.  [fld_attrs] holds what
    [setattr(self, fldattr, value)] has stored; the names of the required
    fields are taken to differ from the evaluator's own attribute names.
    [reasons_ineligible] is a dictionary or [None] (line 109 tests for it). *)
Record self : Type := mkSelf {
  _missing_data : dict string;
  verbose : option bool;
  cleaned_data : option (dict pyval);
  eligible : string;
  conf : labels;
  model_obj : option model;
  reasons_ineligible : option (dict string);
  fld_attrs : dict pyval
}.

Definition with_missing_data (d : dict string) (s : self) : self :=
  mkSelf d (verbose s) (cleaned_data s) (eligible s) (conf s) (model_obj s)
         (reasons_ineligible s) (fld_attrs s).

Definition with_eligible (e : string) (s : self) : self :=
  mkSelf (_missing_data s) (verbose s) (cleaned_data s) e (conf s) (model_obj s)
         (reasons_ineligible s) (fld_attrs s).

Definition with_model_obj (m : option model) (s : self) : self :=
  mkSelf (_missing_data s) (verbose s) (cleaned_data s) (eligible s) (conf s) m
         (reasons_ineligible s) (fld_attrs s).

Definition with_reasons_ineligible (r : option (dict string)) (s : self) : self :=
  mkSelf (_missing_data s) (verbose s) (cleaned_data s) (eligible s) (conf s)
         (model_obj s) r (fld_attrs s).

Definition with_fld_attrs (a : dict pyval) (s : self) : self :=
  mkSelf (_missing_data s) (verbose s) (cleaned_data s) (eligible s) (conf s)
         (model_obj s) (reasons_ineligible s) a.

(* ===================================================================== *)
(** ** A state-and-exception monad for methods *)
(* ===================================================================== *)

(** A method of the evaluator: it reads and updates [self], and returns a
    value or raises. *)
Definition M (A : Type) : Type := self -> result (A * self).

Definition ret {A} (a : A) : M A := fun s => Ok (a, s).

Definition bind {A B} (m : M A) (f : A -> M B) : M B :=
  fun s => match m s with
           | Ok (a, s') => f a s'
           | Raise e => Raise e
           end.

Definition raise {A} (e : exn) : M A := fun _ => Raise e.

Definition get : M self := fun s => Ok (s, s).

Definition modify (f : self -> self) : M unit := fun s => Ok (tt, f s).

(** [try: m except ...: h e]; the bodies guarded in this module only read. *)
Definition try_except {A} (m : M A) (h : exn -> M A) : M A :=
  fun s => match m s with
           | Ok r => Ok r
           | Raise e => h e s
           end.

Declare Scope method_scope.
Delimit Scope method_scope with method.
Notation "x <- c ;; k" := (bind c (fun x => k))
  (at level 61, c at next level, right associativity) : method_scope.
Notation "c ;; k" := (bind c (fun _ => k))
  (at level 61, right associativity) : method_scope.
Local Open Scope method_scope.

(** [for x in l: body(x)]. *)
Fixpoint for_each {A} (l : list A) (body : A -> M unit) : M unit :=
  match l with
  | [] => ret tt
  | x :: rest => body x ;; for_each rest body
  end.

(* ===================================================================== *)
(** ** The class [ScreeningEligibility] and its subclasses *)
(* ===================================================================== *)

(** A (sub)class of [ScreeningEligibility]: its name, its class-level
    labels, the attributes it declares (with their class-level values), the
    table [get_required_fields()] returns, and its two hooks.
    Both hooks are methods of the evaluator, overridden by a subclass: they
    read and update the evaluator, the record it holds among the rest, or
    raise. *)
Record evaluator_class : Type := mkClass {
  class_name : string;
  class_labels : labels;
  class_attrs : dict pyval;
  get_required_fields : dict FC;
  assess_eligibility : M unit;
  set_fld_attrs_on_model : M unit
}.

(** The hooks of the base class: [pass]. *)
Definition assess_eligibility_default : M unit := ret tt.

Definition set_fld_attrs_on_model_default : M unit := ret tt.

(** The arguments of [__init__]. *)
Record init_args : Type := mkArgs {
  arg_model_obj : option model;
  arg_cleaned_data : option (dict pyval);
  arg_eligible_value_default : option string;
  arg_eligible_values_list : option (list string);
  arg_is_eligible_value : option string;
  arg_is_ineligible_value : option string;
  arg_eligible_display_label : option string;
  arg_ineligible_display_label : option string;
  arg_verbose : option bool
}.

(** [if arg: self.attr = arg] for a string argument. *)
Definition override (arg : option string) (current : string) : string :=
  match arg with
  | Some s => if (s =? "")%string then current else s
  | None => current
  end.

Definition override_list (arg : option (list string)) (current : list string)
  : list string :=
  match arg with
  | Some (x :: l) => x :: l
  | _ => current
  end.

(** [if self.verbose]. *)
Definition verbose_on (s : self) : bool :=
  match verbose s with Some true => true | _ => false end.

Definition reasons_truthy (s : self) : bool :=
  match reasons_ineligible s with Some (_ :: _) => true | _ => false end.

(** [x in l] for a list of strings. *)
Definition str_in (x : string) (l : list string) : bool :=
  existsb (String.eqb x) l.

Section Methods.

Variable cls : evaluator_class.

(** [getattr(self, fldattr)]: the instance's own attribute, else the
    class's, else [AttributeError]. *)
Definition getattr (fldattr : string) : M pyval := fun s =>
  match dict_get fldattr (fld_attrs s) with
  | Some v => Ok (v, s)
  | None =>
      match dict_get fldattr (class_attrs cls) with
      | Some v => Ok (v, s)
      | None => Raise (AttributeError (class_name cls) fldattr)
      end
  end.

(** [setattr(self, fldattr, value)]. *)
Definition setattr (fldattr : string) (v : pyval) : M unit :=
  modify (fun s => with_fld_attrs (dict_set fldattr v (fld_attrs s)) s).

(** Lines 215-234: the value of one required field. *)
Definition field_value (fldattr : string) : M pyval := fun s =>
  match model_obj s with
  | Some m =>
      match cleaned_data s with
      | Some (entry :: d) =>                 (* cleaned_data.get(fldattr) *)
          match dict_get fldattr (entry :: d) with
          | Some v => Ok (v, s)
          | None => Ok (PNone, s)
          end
      | _ =>                                 (* getattr(model_obj, fldattr) *)
          match model_getattr m fldattr with
          | Ok v => Ok (v, s)
          | Raise (AttributeError _ a) =>
              Raise (ScreeningEligibilityModelAttributeError (model_class m) a)
          | Raise e => Raise e
          end
      end
  | None =>
      match cleaned_data s with
      | Some d =>
          match dict_get fldattr d with      (* cleaned_data[fldattr] *)
          | Some v => Ok (v, s)
          | None => Raise (ScreeningEligibilityCleanedDataKeyError fldattr)
          end
      | None => Raise TypeError             (* None[fldattr] *)
      end
  end.

(** The body of the loop of [set_fld_attrs_on_self] (lines 207-235). *)
Definition set_fld_attr_on_self (fldattr : string) : M unit :=
  try_except (getattr fldattr)
    (fun e => match e with
              | AttributeError _ a =>
                  raise (ScreeningEligibilityAttributeError (class_name cls) a)
              | _ => raise e
              end) ;;
  v <- field_value fldattr ;;
  setattr fldattr v.

(** "Adds fld attrs from the model / cleaned_data to self". *)
Definition set_fld_attrs_on_self : M unit :=
  for_each (dict_keys (get_required_fields cls)) set_fld_attr_on_self.

(** The body of the loop of lines 241-248, on the dictionary
    [missing_responses] being built. *)
Definition missing_response (acc : dict pyval) (entry : string * FC)
  : M (dict pyval) :=
  let (fldattr, fc) := entry in
  if negb (ignore_if_missing fc) then
    v <- getattr fldattr ;;
    if truthy v then
      if truthy_str (missing_value fc)
         && match missing_value fc with
            | Some mv => py_eq v (PStr mv)
            | None => false
            end
      then ret (dict_set fldattr PNone acc)
      else ret acc
    else ret (dict_set fldattr v acc)
  else ret acc.

Fixpoint missing_responses (acc : dict pyval) (entries : dict FC)
  : M (dict pyval) :=
  match entries with
  | [] => ret acc
  | entry :: rest =>
      acc' <- missing_response acc entry ;;
      missing_responses acc' rest
  end.

(** The message of a missing field,
    [f"`{k.replace('_', ' ').title()}` not answered"]. *)
Definition not_answered (k : string) : string :=
  "`" ++ title (replace "_" " " k) ++ "` not answered".

(** The dictionary comprehension of lines 249-253. *)
Definition missing_messages (responses : dict pyval) : dict string :=
  dict_update []
    (map (fun kv => (fst kv, not_answered (fst kv)))
         (filter (fun kv => negb (truthy (snd kv))) responses)).

(** The property [missing_data]: computed while the cache is falsy. *)
Definition missing_data : M (dict string) :=
  s <- get ;;
  (if negb (dict_truthy (_missing_data s)) then
     responses <- missing_responses [] (get_required_fields cls) ;;
     modify (with_missing_data (missing_messages responses))
   else ret tt) ;;
  s' <- get ;;
  ret (_missing_data s').

(** The property [is_eligible]. *)
Definition is_eligible (s : self) : bool :=
  (eligible s =? is_eligible_value (conf s))%string.

(** [self.reasons_ineligible.update(other)]. *)
Definition reasons_update (other : dict string) : M unit := fun s =>
  match reasons_ineligible s with
  | Some d => Ok (tt, with_reasons_ineligible (Some (dict_update d other)) s)
  | None => Raise (AttributeError "NoneType" "update")
  end.

(** The message of a failed criterion (lines 172-174). *)
Definition default_message (fldattr : string) : string :=
  replace "_" " " (title fldattr).

Definition failure_message (fldattr : string) (fc : FC) : M string :=
  let m := match msg fc with
           | Some m => if (m =? "")%string then default_message fldattr else m
           | None => default_message fldattr
           end in
  s <- get ;;
  if verbose_on s then
    v <- getattr fldattr ;;
    ret (m ++ ". Got " ++ fldattr ++ "=" ++ py_str v)
  else ret m.

(** One of the two identical [if] statements of lines 175-186. *)
Definition test_criterion (fldattr : string) (fc : FC) (m : string) : M unit :=
  match value fc with
  | Some a =>
      v <- getattr fldattr ;;
      if fails_criterion a v then
        reasons_update [(fldattr, m)] ;;
        modify (fun s => with_eligible (is_ineligible_value (conf s)) s)
      else ret tt
  | None => ret tt
  end.

(** The body of the loop of lines 169-186. *)
Definition assess_field (entry : string * FC) : M unit :=
  let (fldattr, fc) := entry in
  md <- missing_data ;;
  if negb (dict_in fldattr md) then
    if truthy_accepted (value fc) then
      m <- failure_message fldattr fc ;;
      test_criterion fldattr fc m ;;
      test_criterion fldattr fc m
    else ret tt
  else ret tt.

(** Lines 166-168. *)
Definition merge_missing_data : M unit :=
  md <- missing_data ;;
  if dict_truthy md then
    md' <- missing_data ;;
    reasons_update md' ;;
    modify (fun s => with_eligible (eligible_value_default (conf s)) s)
  else ret tt.

(** Lines 164-186: everything before the hook. *)
Definition assess_required_fields : M unit :=
  set_fld_attrs_on_self ;;
  modify (fun s => with_eligible (is_eligible_value (conf s)) s) ;;
  merge_missing_data ;;
  for_each (get_required_fields cls) assess_field.

Definition _assess_eligibility : M unit :=
  assess_required_fields ;;
  s <- get ;;
  if is_eligible s then assess_eligibility cls else ret tt.

(** ["|".join(self.reasons_ineligible.values()) or None]. *)
Definition joined_reasons (d : dict string) : pyval :=
  let j := join "|" (dict_values d) in
  if (j =? "")%string then PNone else PStr j.

(** Lines 196-202: the two writes on the record, then the hook, called on
    the evaluator that holds the written record. *)
Definition _set_fld_attrs_on_model : M unit := fun s =>
  match reasons_ineligible s with
  | Some d =>
      match model_obj s with
      | Some m =>
          let m1 := model_setattr (reasons_ineligible_fld_name (conf s))
                                  (joined_reasons d) m in
          let m2 := model_setattr (eligible_fld_name (conf s))
                                  (PStr (eligible s)) m1 in
          set_fld_attrs_on_model cls (with_model_obj (Some m2) s)
      | None =>
          Raise (AttributeError "NoneType" (reasons_ineligible_fld_name (conf s)))
      end
  | None => Raise (AttributeError "NoneType" "values")
  end.

(** The evaluator as [__init__] sets it up before line 100. *)
Definition initial_self (a : init_args) : self :=
  let c := class_labels cls in
  mkSelf []
         (arg_verbose a)
         (arg_cleaned_data a)
         (eligible_value_default c)
         (mkLabels
            (override (arg_eligible_display_label a) (eligible_display_label c))
            (eligible_fld_name c)
            (override (arg_eligible_value_default a) (eligible_value_default c))
            (override_list (arg_eligible_values_list a) (eligible_values_list c))
            (override (arg_ineligible_display_label a) (ineligible_display_label c))
            (override (arg_is_eligible_value a) (is_eligible_value c))
            (override (arg_is_ineligible_value a) (is_ineligible_value c))
            (reasons_ineligible_fld_name c))
         (arg_model_obj a)
         (Some [])
         [].

(** Lines 101-125: the checks on the assessed evaluator. *)
Definition check_result : M unit := fun s =>
  if negb (str_in (eligible s) (eligible_values_list (conf s))) then
    Raise (ScreeningEligibilityError InvalidValue)
  else if (eligible s =? "")%string
          || negb (str_in (eligible s) (eligible_values_list (conf s)))
          || match reasons_ineligible s with None => true | Some _ => false end
  then Raise (ScreeningEligibilityError NotSet)
  else if is_eligible s && reasons_truthy s then
    Raise (ScreeningEligibilityInvalidCombination EligibleWithReasons)
  else if negb (is_eligible s) && negb (reasons_truthy s) then
    Raise (ScreeningEligibilityInvalidCombination NotEligibleWithoutReasons)
  else Ok (tt, s).

(** The constructor: the evaluator it builds, or the exception it
    raises. *)
Definition __init__ (a : init_args) : result self :=
  match (_assess_eligibility ;;
         check_result ;;
         s <- get ;;
         match model_obj s with
         | Some _ => _set_fld_attrs_on_model
         | None => ret tt
         end) (initial_self a) with
  | Ok (_, s) => Ok s
  | Raise e => Raise e
  end.

(** The property [display_label]. *)
Definition display_label (s : self) : string :=
  if (eligible s =? is_eligible_value (conf s))%string
  then eligible_display_label (conf s)
  else if (eligible s =? is_ineligible_value (conf s))%string
       then ineligible_display_label (conf s)
       else eligible s.

End Methods.

(* ===================================================================== *)
(** ** [GenderEvaluator] *)
(* ===================================================================== *)

Module GenderEvaluator.

(** The two attributes of an instance; [reasons_ineligible] is [None] or a
    list. *)
Record t : Type := mk {
  eligible : bool;
  reasons_ineligible : option (list string)
}.

(** The class attribute [eligible_gender = [MALE, FEMALE]]. *)
Definition eligible_gender : list pyval := [PStr MALE; PStr FEMALE].

(** [__init__(self, gender=None, **kwargs)], the class attribute being a
    parameter (a subclass may redefine it). *)
Definition init_with (eligible_gender : list pyval) (gender : pyval) : t :=
  let e := if py_in gender eligible_gender then true else false in
  if negb e then
    let r : list string := [] in
    let r := if negb (py_in gender [PStr MALE; PStr FEMALE])
             then app r [py_str gender ++ " is an invalid gender."]
             else r in
    mk e (Some r)
  else mk e None.

Definition __init__ (gender : pyval) : t := init_with eligible_gender gender.

End GenderEvaluator.

(* ===================================================================== *)
(** * Specification-level definitions *)
(* ===================================================================== *)

(** What [getattr(self, fldattr)] finds, given the instance's attributes. *)
Definition lookup_attr (cls : evaluator_class) (a : dict pyval) (fldattr : string)
  : option pyval :=
  match dict_get fldattr a with
  | Some v => Some v
  | None => dict_get fldattr (class_attrs cls)
  end.

Definition attr_value (cls : evaluator_class) (a : dict pyval) (fldattr : string)
  : pyval :=
  match lookup_attr cls a fldattr with Some v => v | None => PNone end.

(** Every required field is a readable attribute. *)
Definition readable (cls : evaluator_class) (a : dict pyval) : bool :=
  forallb (fun k => match lookup_attr cls a k with Some _ => true | None => false end)
          (dict_keys (get_required_fields cls)).

(** A field counts as missing: its descriptor does not ignore missing
    values, and the value is falsy or is the descriptor's missing value. *)
Definition is_missing (fc : FC) (v : pyval) : bool :=
  negb (ignore_if_missing fc)
  && (negb (truthy v)
      || match missing_value fc with
         | Some mv => py_eq v (PStr mv)
         | None => false
         end).

(** The field [k] is declared with a descriptor under which its value is
    missing. *)
Definition missing_in (cls : evaluator_class) (a : dict pyval)
           (entries : dict FC) (k : string) : bool :=
  existsb (fun kv => (fst kv =? k)%string
                     && is_missing (snd kv) (attr_value cls a (fst kv)))
          entries.

(** One step of the loop, as a function of the attributes. *)
Definition response_of (cls : evaluator_class) (a : dict pyval)
           (acc : dict pyval) (entry : string * FC) : dict pyval :=
  let v := attr_value cls a (fst entry) in
  if is_missing (snd entry) v
  then dict_set (fst entry) (if truthy v then PNone else v) acc
  else acc.

(** The missing data, as a function of the attributes. *)
Definition missing_data_of (cls : evaluator_class) (a : dict pyval) : dict string :=
  missing_messages (fold_left (response_of cls a) (get_required_fields cls) []).

(** [if self.verbose], on the attribute's value. *)
Definition verbose_flag (vb : option bool) : bool :=
  match vb with Some true => true | _ => false end.

(** The message a failing field is recorded with. *)
Definition message_of (cls : evaluator_class) (vb : option bool) (a : dict pyval)
           (fldattr : string) (fc : FC) : string :=
  let m := match msg fc with
           | Some m => if (m =? "")%string then default_message fldattr else m
           | None => default_message fldattr
           end in
  if verbose_flag vb
  then m ++ ". Got " ++ fldattr ++ "=" ++ py_str (attr_value cls a fldattr)
  else m.

(** The value of a field fails the test of its descriptor. *)
Definition fails (fc : FC) (v : pyval) : bool :=
  match value fc with
  | Some acc => fails_criterion acc v
  | None => false
  end.

(** The rule loop records the field: it is not in the missing data, its
    descriptor has a truthy accepted value, and its value fails the test. *)
Definition field_fails (cls : evaluator_class) (a : dict pyval)
           (entry : string * FC) : bool :=
  negb (missing_in cls a (get_required_fields cls) (fst entry))
  && truthy_accepted (value (snd entry))
  && fails (snd entry) (attr_value cls a (fst entry)).

(** The reasons after the rule loop has gone through [entries]. *)
Definition reasons_after (cls : evaluator_class) (vb : option bool) (a : dict pyval)
           (entries : dict FC) (r : dict string) : dict string :=
  fold_left (fun r e => if field_fails cls a e
                        then dict_set (fst e) (message_of cls vb a (fst e) (snd e)) r
                        else r)
            entries r.

(** The evaluator after lines 165-186, from the evaluator [s] on which the
    required fields have been set and whose reasons are [r]. *)
Definition assessed (cls : evaluator_class) (s : self) (r : dict string) : self :=
  let a := fld_attrs s in
  let md := missing_data_of cls a in
  mkSelf md (verbose s) (cleaned_data s)
         (if existsb (field_fails cls a) (get_required_fields cls)
          then is_ineligible_value (conf s)
          else if dict_truthy md then eligible_value_default (conf s)
               else is_eligible_value (conf s))
         (conf s) (model_obj s)
         (Some (reasons_after cls (verbose s) a (get_required_fields cls)
                              (dict_update r md)))
         a.

(** The body of the rule loop with the test written once, as the spec
    describes it: "this spec treats it as a single evaluation". *)
Definition assess_field_once (cls : evaluator_class) (entry : string * FC) : M unit :=
  let (fldattr, fc) := entry in
  md <- missing_data cls ;;
  if negb (dict_in fldattr md) then
    if truthy_accepted (value fc) then
      m <- failure_message cls fldattr fc ;;
      test_criterion cls fldattr fc m
    else ret tt
  else ret tt.

(* ===================================================================== *)
(** ** Worked scenarios *)
(* ===================================================================== *)

(** [__init__] called with a mapping only, or with a record only. *)
Definition with_cleaned_data (d : dict pyval) : init_args :=
  mkArgs None (Some d) None None None None None None None.

Definition with_record (m : model) : init_args :=
  mkArgs (Some m) None None None None None None None None.

(** A subclass declaring [age_in_years] with [FC(range(18, 65))]. *)
Definition age_class : evaluator_class :=
  mkClass "AgeEligibility" default_labels [("age_in_years", PNone)]
          [("age_in_years", mkFC (Some (ARange 18 65 1)) None false None)]
          assess_eligibility_default set_fld_attrs_on_model_default.

(** A subclass without required fields whose hook answers with a verdict
    that is not one of [eligible_values_list], and records no reason. *)
Definition undecided_class : evaluator_class :=
  mkClass "Undecided" default_labels [] []
          (modify (with_eligible "maybe")) set_fld_attrs_on_model_default.

(** The error the constructor raises on a verdict and reasons that do not
    agree, by the order of its checks. *)
Definition mismatch_error (s : self) : exn :=
  if negb (str_in (eligible s) (eligible_values_list (conf s)))
  then ScreeningEligibilityError InvalidValue
  else if (eligible s =? "")%string
       then ScreeningEligibilityError NotSet
       else ScreeningEligibilityInvalidCombination
              (if is_eligible s then EligibleWithReasons
               else NotEligibleWithoutReasons).

(** A subclass of the age scenario whose hook raises, so that a call of the
    hook shows in what the constructor returns. *)
Definition probe_class : evaluator_class :=
  mkClass "Probe" default_labels [("age_in_years", PNone)]
          [("age_in_years", mkFC (Some (ARange 18 65 1)) None false None)]
          (raise (Exception "assess_eligibility called"))
          set_fld_attrs_on_model_default.

(** [__init__(cleaned_data=d, eligible_value_default=token)]. *)
Definition with_default_token (d : dict pyval) (token : string) : init_args :=
  mkArgs None (Some d) (Some token) None None None None None None.

(** A declared field is missing, or is tested by the rule loop and
    fails. *)
Definition missing_or_failed (fc : FC) (v : pyval) : bool :=
  is_missing fc v || (truthy_accepted (value fc) && fails fc v).

(** [__init__(model_obj=m, cleaned_data=d)]. *)
Definition with_record_and_cleaned_data (m : model) (d : dict pyval) : init_args :=
  mkArgs (Some m) (Some d) None None None None None None None.

(** A screening record of a seventy-year-old. *)
Definition record_aged_70 : model :=
  mkModel "SubjectScreening"
          [("age_in_years", PInt 70); ("eligible", PBool false);
           ("reasons_ineligible", PNone); ("consented", PBool false)]
          0.

(** The evaluator once [setattr(self, k, v)] has stored a value. *)
Definition stored (k : string) (v : pyval) (s : self) : self :=
  with_fld_attrs (dict_set k v (fld_attrs s)) s.

(** A subclass with one optional question: [consent_ability] must be [YES]
    and is declared with [ignore_if_missing=True]. *)
Definition optional_class : evaluator_class :=
  mkClass "OptionalQuestion" default_labels [("consent_ability", PNone)]
          [("consent_ability", mkFC (Some (AStr YES)) None true None)]
          assess_eligibility_default set_fld_attrs_on_model_default.

(** A subclass without required fields whose hook finds the subject
    ineligible and records an empty reason. *)
Definition empty_reason_class : evaluator_class :=
  mkClass "EmptyReason" default_labels [] []
          (reasons_update [("bmi", "")] ;; modify (with_eligible NO))
          set_fld_attrs_on_model_default.

(** The record once lines 196-201 have written the reasons and the
    verdict of the evaluator [s] onto it. *)
Definition written (s : self) (d : dict string) (m : model) : model :=
  model_setattr (eligible_fld_name (conf s)) (PStr (eligible s))
    (model_setattr (reasons_ineligible_fld_name (conf s)) (joined_reasons d) m).

(** A hook leaves the result of the assessment alone: when it returns, the
    verdict, the eligible token and the reasons of the evaluator are what
    they were. *)
Definition keeps_verdict (hook : M unit) : Prop :=
  forall s u s', hook s = Ok (u, s') ->
    eligible s' = eligible s
    /\ is_eligible_value (conf s') = is_eligible_value (conf s)
    /\ reasons_ineligible s' = reasons_ineligible s.

(** A subclass without required fields whose [set_fld_attrs_on_model]
    records a reason on the evaluator. *)
Definition late_reason_class : evaluator_class :=
  mkClass "LateReason" default_labels [] []
          assess_eligibility_default
          (reasons_update [("bmi", "BMI over 40")]).


(* ===================================================================== *)
(** ** Definitions for the further properties *)
(* ===================================================================== *)

(** The three tokens are non-empty members of [eligible_values_list], and
    the default and the ineligible token differ from the eligible one. *)
Definition tokens_ok (c : labels) : bool :=
  negb (is_eligible_value c =? "")%string
  && str_in (is_eligible_value c) (eligible_values_list c)
  && negb (eligible_value_default c =? "")%string
  && str_in (eligible_value_default c) (eligible_values_list c)
  && negb (is_ineligible_value c =? "")%string
  && str_in (is_ineligible_value c) (eligible_values_list c)
  && negb (eligible_value_default c =? is_eligible_value c)%string
  && negb (is_ineligible_value c =? is_eligible_value c)%string.

(** The entry of a declared field whose value is missing, and the entry of
    one that is there, is tested and fails, given the attributes [a] of the
    evaluator. *)
Definition entry_missing (cls : evaluator_class) (a : dict pyval)
           (e : string * FC) : bool :=
  is_missing (snd e) (attr_value cls a (fst e)).

Definition entry_failed (cls : evaluator_class) (a : dict pyval)
           (e : string * FC) : bool :=
  negb (entry_missing cls a e)
  && truthy_accepted (value (snd e))
  && fails (snd e) (attr_value cls a (fst e)).

(** A subclass declaring three fields: [gender] in [[MALE, FEMALE]],
    [age_in_years] in [range(18, 65)], and [consent] equal to [YES] with a
    message of its own. *)
Definition screening_class : evaluator_class :=
  mkClass "SubjectScreeningEligibility" default_labels
          [("gender", PNone); ("age_in_years", PNone); ("consent", PNone)]
          [("gender", mkFC (Some (AList [PStr MALE; PStr FEMALE])) None false None);
           ("age_in_years", mkFC (Some (ARange 18 65 1)) None false None);
           ("consent", mkFC (Some (AStr YES)) (Some "Consent not given") false None)]
          assess_eligibility_default set_fld_attrs_on_model_default.

(** Answers with an invalid gender, no age and a refused consent. *)
Definition poor_answers : dict pyval :=
  [("gender", PStr "X"); ("age_in_years", PNone); ("consent", PStr NO)].

(** The same call of [__init__] with another [verbose], and the same
    evaluator with another [verbose]. *)
Definition args_with_verbose (v : option bool) (a : init_args) : init_args :=
  mkArgs (arg_model_obj a) (arg_cleaned_data a) (arg_eligible_value_default a)
         (arg_eligible_values_list a) (arg_is_eligible_value a)
         (arg_is_ineligible_value a) (arg_eligible_display_label a)
         (arg_ineligible_display_label a) v.

Definition with_verbose (v : option bool) (s : self) : self :=
  mkSelf (_missing_data s) v (cleaned_data s) (eligible s) (conf s) (model_obj s)
         (reasons_ineligible s) (fld_attrs s).

(** The result of a method, seen through a change of the evaluator. *)
Definition map_state {A} (f : self -> self) (r : result (A * self))
  : result (A * self) :=
  match r with
  | Ok (x, s) => Ok (x, f s)
  | Raise e => Raise e
  end.

(** The same call of [__init__] on another record. *)
Definition args_with_record (m : model) (a : init_args) : init_args :=
  mkArgs (Some m) (arg_cleaned_data a) (arg_eligible_value_default a)
         (arg_eligible_values_list a) (arg_is_eligible_value a)
         (arg_is_ineligible_value a) (arg_eligible_display_label a)
         (arg_ineligible_display_label a) (arg_verbose a).

(** The record of the seventy-year-old once assessed, and the evaluator
    that assessed it. *)
Definition record_assessed : model :=
  mkModel "SubjectScreening"
          [("age_in_years", PInt 70); ("eligible", PStr NO);
           ("reasons_ineligible", PStr "Age In Years"); ("consented", PBool false)]
          0.

Definition evaluator_of_record : self :=
  mkSelf [] None None NO default_labels (Some record_assessed)
         (Some [("age_in_years", "Age In Years")]) [("age_in_years", PInt 70)].

(** [__init__()] without any argument. *)
Definition no_args : init_args :=
  mkArgs None None None None None None None None None.

(* ===================================================================== *)
(** ** [SubjectScreeningFormValidatorMixin] *)
(* ===================================================================== *)

(** [edc_screening/form_validator_mixins.py].  The mixin keeps the
    screening record of a form in [_subject_screening], looking it up by its
    [screening_identifier] the first time it is asked for. *)
Module SubjectScreeningFormValidatorMixin.

(** What the mixin raises or lets through: Django's [ObjectDoesNotExist],
    the [forms.ValidationError] with its message and code, and whatever else
    the lookup raises. *)
Inductive error : Type :=
| ObjectDoesNotExist
| ValidationError (message code : string)
| OtherError (what : string).

(** The attributes [__init__] sets (lines 18-19): the cache, empty at
    first, and [screening_identifier], read from [cleaned_data]. *)
Record t : Type := mk {
  _subject_screening : option model;
  screening_identifier : pyval
}.

(** The message of line 38; it holds two double quotes. *)
Definition message : string :=
  "Complete the " ++ String "034" "Subject Screening"
  ++ String "034" " form before proceeding.".

Section Lookup.

(** [self.subject_screening_model_cls.objects.get(screening_identifier=x)]:
    the model is named by a setting and the lookup goes to the database, so
    both are a parameter here: the record found, or the exception raised. *)
Variable objects_get : pyval -> model + error.

(** The property [subject_screening] (lines 30-41): the record, and the
    validator with its cache, or the exception. *)
Definition subject_screening (s : t) : (model * t) + error :=
  match _subject_screening s with
  | Some found => inl (found, s)
  | None =>
      match objects_get (screening_identifier s) with
      | inl found => inl (found, mk (Some found) (screening_identifier s))
      | inr ObjectDoesNotExist =>
          inr (ValidationError message "missing_subject_screening")
      | inr e => inr e
      end
  end.

End Lookup.

End SubjectScreeningFormValidatorMixin.

(** [__init__(cleaned_data=d, is_ineligible_value=token)]. *)
Definition with_ineligible_token (d : dict pyval) (token : string) : init_args :=
  mkArgs None (Some d) None None None (Some token) None None None.
(* ===================================================================== *)
(** * Properties *)
(* ===================================================================== *)

(** ** Dictionaries *)

Section DictFacts.

Context {V : Type}.
Implicit Types (d : dict V) (k : string) (v : V).

Lemma dict_get_set_same k v d : dict_get k (dict_set k v d) = Some v.
Proof.
  induction d as [|[k' v'] d IH]; simpl.
  - now rewrite String.eqb_refl.
  - destruct (String.eqb_spec k' k) as [->|Hne]; simpl.
    + now rewrite String.eqb_refl.
    + destruct (String.eqb_spec k' k); [contradiction|exact IH].
Qed.

Lemma dict_get_set_other k k' v d :
  k <> k' -> dict_get k' (dict_set k v d) = dict_get k' d.
Proof.
  intros Hne. induction d as [|[k0 v0] d IH]; simpl.
  - destruct (String.eqb_spec k k'); [contradiction|reflexivity].
  - destruct (String.eqb_spec k0 k) as [->|Hk]; simpl.
    + destruct (String.eqb_spec k k'); [contradiction|reflexivity].
    + destruct (String.eqb_spec k0 k'); [reflexivity|exact IH].
Qed.

Lemma dict_set_idem k v d : dict_set k v (dict_set k v d) = dict_set k v d.
Proof.
  induction d as [|[k' v'] d IH]; simpl.
  - now rewrite String.eqb_refl.
  - destruct (String.eqb_spec k' k) as [->|Hne]; simpl.
    + now rewrite String.eqb_refl.
    + destruct (String.eqb_spec k' k); [contradiction|now rewrite IH].
Qed.

(** Setting a key the dictionary does not have appends the entry. *)
Lemma dict_set_fresh k v d :
  dict_get k d = None -> dict_set k v d = (d ++ [(k, v)])%list.
Proof.
  induction d as [|[k' v'] d IH]; simpl; [reflexivity|].
  destruct (String.eqb_spec k' k); [discriminate|].
  intros H. now rewrite IH.
Qed.

Lemma dict_in_set k k' v d :
  dict_in k' (dict_set k v d) = (k =? k')%string || dict_in k' d.
Proof.
  unfold dict_in. destruct (String.eqb_spec k k') as [->|Hne]; simpl.
  - now rewrite dict_get_set_same.
  - now rewrite dict_get_set_other.
Qed.

Lemma dict_in_keys k d : dict_in k d = true <-> In k (dict_keys d).
Proof.
  unfold dict_in. induction d as [|[k' v'] d IH]; simpl.
  - split; [discriminate|tauto].
  - destruct (String.eqb_spec k' k) as [->|Hne].
    + split; auto.
    + rewrite IH. split; [auto|intros [?|?]; [contradiction|assumption]].
Qed.

Lemma dict_get_in k v d : dict_get k d = Some v -> In (k, v) d.
Proof.
  induction d as [|[k' v'] d IH]; simpl; [discriminate|].
  destruct (String.eqb_spec k' k) as [->|Hne].
  - intros [= ->]. now left.
  - intros H. right. auto.
Qed.

Lemma dict_set_nonempty k v d : dict_set k v d <> [].
Proof. destruct d as [|[k' v'] d]; simpl; [|destruct (k' =? k)%string]; discriminate. Qed.

Lemma dict_update_single k v d : dict_update d [(k, v)] = dict_set k v d.
Proof. reflexivity. Qed.

Lemma dict_update_cons k v d other :
  dict_update d ((k, v) :: other) = dict_update (dict_set k v d) other.
Proof. reflexivity. Qed.

End DictFacts.

(** ** Reading attributes *)

Lemma getattr_eq cls fldattr s :
  getattr cls fldattr s =
  match lookup_attr cls (fld_attrs s) fldattr with
  | Some v => Ok (v, s)
  | None => Raise (AttributeError (class_name cls) fldattr)
  end.
Proof.
  unfold getattr, lookup_attr.
  destruct (dict_get fldattr (fld_attrs s)); [reflexivity|].
  destruct (dict_get fldattr (class_attrs cls)); reflexivity.
Qed.

Lemma getattr_readable cls fldattr s :
  lookup_attr cls (fld_attrs s) fldattr <> None ->
  getattr cls fldattr s = Ok (attr_value cls (fld_attrs s) fldattr, s).
Proof.
  intros H. rewrite getattr_eq. unfold attr_value.
  destruct (lookup_attr cls (fld_attrs s) fldattr); [reflexivity|contradiction].
Qed.

Lemma readable_key cls a k :
  readable cls a = true -> In k (dict_keys (get_required_fields cls)) ->
  lookup_attr cls a k <> None.
Proof.
  unfold readable. rewrite forallb_forall. intros H Hin.
  specialize (H k Hin). destruct (lookup_attr cls a k); [discriminate|discriminate].
Qed.

Lemma readable_entry cls a k fc :
  readable cls a = true -> In (k, fc) (get_required_fields cls) ->
  lookup_attr cls a k <> None.
Proof.
  intros H Hin. apply readable_key; [assumption|].
  unfold dict_keys. change k with (fst (k, fc)). now apply in_map.
Qed.

(** ** The missing responses *)

Lemma py_eq_str v s : py_eq v (PStr s) = true <-> v = PStr s.
Proof.
  destruct v as [|b|z|t]; simpl; try (split; discriminate).
  rewrite String.eqb_eq. split; [now intros ->|now intros [= ->]].
Qed.

(** The condition the property computes is [is_missing]. *)
Lemma is_missing_code fc v :
  is_missing fc v =
  negb (ignore_if_missing fc)
  && (if truthy v
      then truthy_str (missing_value fc)
           && match missing_value fc with
              | Some mv => py_eq v (PStr mv)
              | None => false
              end
      else true).
Proof.
  unfold is_missing. destruct (ignore_if_missing fc); simpl; [reflexivity|].
  destruct (truthy v) eqn:Ht; simpl; [|reflexivity].
  destruct (missing_value fc) as [mv|]; simpl; [|reflexivity].
  destruct (py_eq v (PStr mv)) eqn:He; [|now rewrite andb_false_r].
  apply py_eq_str in He. subst v. simpl in Ht. now rewrite Ht.
Qed.

Lemma missing_response_eq cls acc k fc s :
  lookup_attr cls (fld_attrs s) k <> None ->
  missing_response cls acc (k, fc) s = Ok (response_of cls (fld_attrs s) acc (k, fc), s).
Proof.
  intros Hr. unfold missing_response, response_of. simpl fst; simpl snd.
  rewrite is_missing_code.
  destruct (ignore_if_missing fc); simpl; [reflexivity|].
  unfold bind. rewrite (getattr_readable _ _ _ Hr).
  destruct (truthy (attr_value cls (fld_attrs s) k)); [|reflexivity].
  destruct (truthy_str (missing_value fc) && _); reflexivity.
Qed.

Lemma missing_responses_eq cls entries : forall acc s,
  (forall k fc, In (k, fc) entries -> lookup_attr cls (fld_attrs s) k <> None) ->
  missing_responses cls acc entries s =
  Ok (fold_left (response_of cls (fld_attrs s)) entries acc, s).
Proof.
  induction entries as [|[k fc] entries IH]; intros acc s Hr;
    cbn [missing_responses fold_left]; [reflexivity|].
  unfold bind. rewrite missing_response_eq by (apply (Hr k fc); now left).
  apply IH. intros k' fc' Hin. apply (Hr k' fc'). now right.
Qed.

(** Every response recorded is falsy, so the comprehension keeps them
    all. *)
Lemma responses_falsy cls a entries : forall acc,
  forallb (fun kv => negb (truthy (snd kv))) acc = true ->
  forallb (fun kv : string * pyval => negb (truthy (snd kv)))
          (fold_left (response_of cls a) entries acc) = true.
Proof.
  induction entries as [|e entries IH]; intros acc Hacc; simpl; [assumption|].
  apply IH. unfold response_of.
  destruct (is_missing (snd e) (attr_value cls a (fst e))); [|assumption].
  set (w := if truthy (attr_value cls a (fst e)) then PNone else attr_value cls a (fst e)).
  assert (Hw : negb (truthy w) = true).
  { unfold w. destruct (truthy (attr_value cls a (fst e))) eqn:Ht; simpl; [reflexivity|].
    now rewrite Ht. }
  clear -Hacc Hw. induction acc as [|[k' v'] acc IHacc]; simpl in *.
  - now rewrite Hw.
  - apply andb_prop in Hacc as [H1 H2].
    destruct (k' =? fst e)%string; simpl.
    + now rewrite Hw, H2.
    + now rewrite H1, IHacc.
Qed.

Lemma responses_keys cls a entries k : forall acc,
  dict_in k (fold_left (response_of cls a) entries acc) =
  dict_in k acc || missing_in cls a entries k.
Proof.
  unfold missing_in.
  induction entries as [|e entries IH]; intros acc; cbn [fold_left existsb].
  - now rewrite orb_false_r.
  - rewrite IH. unfold response_of at 1.
    destruct (is_missing (snd e) (attr_value cls a (fst e))) eqn:Hm.
    + rewrite dict_in_set.
      destruct (fst e =? k)%string, (dict_in k acc), (existsb _ entries); reflexivity.
    + destruct (fst e =? k)%string, (dict_in k acc), (existsb _ entries); reflexivity.
Qed.

Lemma filter_all {A} (f : A -> bool) (l : list A) :
  forallb f l = true -> filter f l = l.
Proof.
  induction l as [|x l IH]; simpl; [reflexivity|].
  intros H. apply andb_prop in H as [-> H]. now rewrite IH.
Qed.

(** ** The comprehension *)

Lemma dict_update_keyed_get {V W} (f : string -> W) (l : dict V) k : forall d,
  dict_get k (dict_update d (map (fun kv => (fst kv, f (fst kv))) l)) =
  if dict_in k l then Some (f k) else dict_get k d.
Proof.
  induction l as [|[k0 v0] l IH]; intros d; [reflexivity|].
  cbn [map fst]. rewrite dict_update_cons, IH. unfold dict_in at 2. simpl.
  destruct (String.eqb_spec k0 k) as [->|Hne].
  - rewrite dict_get_set_same. now destruct (dict_in k l).
  - rewrite dict_get_set_other by assumption. reflexivity.
Qed.

Lemma dict_update_nonempty {V} (l : dict V) : forall d,
  d <> [] -> dict_update d l <> [].
Proof.
  induction l as [|[k v] l IH]; intros d Hd; [assumption|].
  rewrite dict_update_cons. apply IH. apply dict_set_nonempty.
Qed.

Lemma dict_update_empty_iff {V} (l : dict V) : dict_update [] l = [] <-> l = [].
Proof.
  split; [|now intros ->].
  destruct l as [|[k v] l]; [reflexivity|].
  rewrite dict_update_cons. intros H. exfalso.
  revert H. apply dict_update_nonempty. apply dict_set_nonempty.
Qed.

Lemma missing_data_of_get cls a k :
  dict_get k (missing_data_of cls a) =
  if missing_in cls a (get_required_fields cls) k
  then Some (not_answered k) else None.
Proof.
  unfold missing_data_of, missing_messages.
  rewrite filter_all by (now apply responses_falsy).
  rewrite dict_update_keyed_get, responses_keys. reflexivity.
Qed.

Lemma missing_data_of_in cls a k :
  dict_in k (missing_data_of cls a) = missing_in cls a (get_required_fields cls) k.
Proof.
  unfold dict_in. rewrite missing_data_of_get.
  now destruct (missing_in cls a (get_required_fields cls) k).
Qed.

Lemma dict_in_nil_iff {V} (d : dict V) :
  d = [] <-> forall k, dict_in k d = false.
Proof.
  split; [now intros ->|].
  destruct d as [|[k v] d]; [reflexivity|].
  intros H. specialize (H k). unfold dict_in in H. simpl in H.
  now rewrite String.eqb_refl in H.
Qed.

(** No missing data means no declared field is missing. *)
Lemma missing_data_of_nil cls a :
  missing_data_of cls a = [] <->
  forall k fc, In (k, fc) (get_required_fields cls) ->
               is_missing fc (attr_value cls a k) = false.
Proof.
  rewrite dict_in_nil_iff. split.
  - intros H k fc Hin. specialize (H k). rewrite missing_data_of_in in H.
    unfold missing_in in H.
    destruct (is_missing fc (attr_value cls a k)) eqn:Hm; [|reflexivity].
    rewrite <- H. symmetry. apply existsb_exists. exists (k, fc). split; [assumption|].
    simpl. now rewrite String.eqb_refl, Hm.
  - intros H k. rewrite missing_data_of_in. unfold missing_in.
    destruct (existsb _ _) eqn:He; [|reflexivity].
    apply existsb_exists in He as [[k' fc'] [Hin Hc]]. simpl in Hc.
    apply andb_prop in Hc as [_ Hc]. now rewrite (H k' fc' Hin) in Hc.
Qed.

(** ** The property [missing_data] *)

Lemma missing_data_eq cls md vb cd e c mo r a :
  readable cls a = true ->
  md = [] \/ md = missing_data_of cls a ->
  missing_data cls (mkSelf md vb cd e c mo r a) =
  Ok (missing_data_of cls a, mkSelf (missing_data_of cls a) vb cd e c mo r a).
Proof.
  intros Hr Hmd. unfold missing_data, bind, get, ret, modify. cbn [_missing_data].
  assert (Hcalc : forall s, fld_attrs s = a ->
            missing_responses cls [] (get_required_fields cls) s =
            Ok (fold_left (response_of cls a) (get_required_fields cls) [], s)).
  { intros s <-. apply missing_responses_eq. intros k fc Hin.
    now apply readable_entry with (fc := fc). }
  destruct Hmd as [-> | ->].
  - cbn [dict_truthy negb]. rewrite Hcalc by reflexivity. reflexivity.
  - destruct (missing_data_of cls a) eqn:Hm.
    + cbn [dict_truthy negb]. rewrite Hcalc by reflexivity.
      cbn. fold (missing_data_of cls a). now rewrite Hm.
    + reflexivity.
Qed.

(** ** One field of the rule loop *)

Lemma failure_message_eq cls k fc md vb cd e c mo r a :
  lookup_attr cls a k <> None ->
  failure_message cls k fc (mkSelf md vb cd e c mo r a) =
  Ok (message_of cls vb a k fc, mkSelf md vb cd e c mo r a).
Proof.
  intros Hk. unfold failure_message, message_of, bind, get, ret, verbose_on, verbose_flag.
  cbn [verbose]. destruct vb as [[|]|]; try reflexivity.
  rewrite getattr_readable by assumption. reflexivity.
Qed.

Lemma test_criterion_eq cls k fc m md vb cd e c mo r a :
  lookup_attr cls a k <> None ->
  test_criterion cls k fc m (mkSelf md vb cd e c mo (Some r) a) =
  Ok (tt, if fails fc (attr_value cls a k)
          then mkSelf md vb cd (is_ineligible_value c) c mo (Some (dict_set k m r)) a
          else mkSelf md vb cd e c mo (Some r) a).
Proof.
  intros Hk. unfold test_criterion, fails. destruct (value fc) as [acc|]; [|reflexivity].
  unfold bind. rewrite getattr_readable by assumption. cbn [fld_attrs].
  destruct (fails_criterion acc (attr_value cls a k)); reflexivity.
Qed.

Lemma assess_field_eq cls k fc md vb cd e c mo r a :
  readable cls a = true ->
  In (k, fc) (get_required_fields cls) ->
  md = [] \/ md = missing_data_of cls a ->
  assess_field cls (k, fc) (mkSelf md vb cd e c mo (Some r) a) =
  Ok (tt, if field_fails cls a (k, fc)
          then mkSelf (missing_data_of cls a) vb cd (is_ineligible_value c) c mo
                      (Some (dict_set k (message_of cls vb a k fc) r)) a
          else mkSelf (missing_data_of cls a) vb cd e c mo (Some r) a).
Proof.
  intros Hr Hin Hmd.
  assert (Hk : lookup_attr cls a k <> None) by (now apply readable_entry with (fc := fc)).
  unfold assess_field, field_fails. cbn [fst snd].
  unfold bind at 1. rewrite missing_data_eq by assumption.
  rewrite missing_data_of_in.
  destruct (missing_in cls a (get_required_fields cls) k); cbn [negb andb]; [reflexivity|].
  destruct (truthy_accepted (value fc)); cbn [andb]; [|reflexivity].
  unfold bind. rewrite failure_message_eq by assumption.
  rewrite test_criterion_eq by assumption.
  destruct (fails fc (attr_value cls a k)) eqn:Hf.
  - rewrite test_criterion_eq by assumption. rewrite Hf, dict_set_idem. reflexivity.
  - rewrite test_criterion_eq by assumption. now rewrite Hf.
Qed.

(** ** The rule loop *)

Lemma rule_loop_eq cls vb cd c mo a (Hr : readable cls a = true) entries :
  forall md e r,
  (forall k fc, In (k, fc) entries -> In (k, fc) (get_required_fields cls)) ->
  md = missing_data_of cls a ->
  for_each entries (assess_field cls) (mkSelf md vb cd e c mo (Some r) a) =
  Ok (tt, mkSelf md vb cd
                 (if existsb (field_fails cls a) entries
                  then is_ineligible_value c else e)
                 c mo (Some (reasons_after cls vb a entries r)) a).
Proof.
  induction entries as [|[k fc] entries IH]; intros md e r Hsub ->; [reflexivity|].
  cbn [for_each]. unfold bind.
  rewrite assess_field_eq; [|assumption|apply Hsub; now left|now right].
  unfold reasons_after. cbn [existsb fold_left fst snd].
  destruct (field_fails cls a (k, fc)); cbn [orb].
  - rewrite IH; [|intros; apply Hsub; now right|reflexivity].
    unfold reasons_after. now destruct (existsb (field_fails cls a) entries).
  - rewrite IH; [|intros; apply Hsub; now right|reflexivity]. reflexivity.
Qed.

(** ** Merging the missing data *)

Lemma merge_missing_data_eq cls vb cd e c mo r a :
  readable cls a = true ->
  merge_missing_data cls (mkSelf [] vb cd e c mo (Some r) a) =
  let md := missing_data_of cls a in
  Ok (tt, mkSelf md vb cd (if dict_truthy md then eligible_value_default c else e)
                 c mo (Some (dict_update r md)) a).
Proof.
  intros Hr. unfold merge_missing_data. unfold bind at 1.
  rewrite missing_data_eq; [|assumption|now left].
  cbv zeta. destruct (missing_data_of cls a) as [|kv md] eqn:Hmd;
    cbn [dict_truthy]; [reflexivity|].
  unfold bind. rewrite <- Hmd. rewrite missing_data_eq; [|assumption|now right].
  reflexivity.
Qed.

(** ** Setting the required fields on the evaluator *)

(** [field_value] reads the record and the mapping only, and leaves the
    evaluator as it is. *)
Lemma field_value_state k s v s' :
  field_value k s = Ok (v, s') -> s' = s.
Proof.
  unfold field_value. intros H.
  destruct (model_obj s) as [m|].
  - destruct (cleaned_data s) as [[|entry d]|].
    + destruct (model_getattr m k) as [w|[]]; congruence.
    + destruct (dict_get k (entry :: d)); congruence.
    + destruct (model_getattr m k) as [w|[]]; congruence.
  - destruct (cleaned_data s) as [d|]; [|discriminate].
    destruct (dict_get k d); congruence.
Qed.

Lemma field_value_attrs k s a :
  field_value k (with_fld_attrs a s) =
  match field_value k s with
  | Ok (v, _) => Ok (v, with_fld_attrs a s)
  | Raise e => Raise e
  end.
Proof.
  unfold field_value. cbn [model_obj cleaned_data with_fld_attrs].
  destruct (model_obj s) as [m|].
  - destruct (cleaned_data s) as [[|entry d]|].
    + destruct (model_getattr m k) as [w|[]]; reflexivity.
    + destruct (dict_get k (entry :: d)); reflexivity.
    + destruct (model_getattr m k) as [w|[]]; reflexivity.
  - destruct (cleaned_data s) as [d|]; [|reflexivity].
    destruct (dict_get k d); reflexivity.
Qed.

Lemma set_fld_attr_on_self_eq cls k s :
  set_fld_attr_on_self cls k s =
  match lookup_attr cls (fld_attrs s) k with
  | None => Raise (ScreeningEligibilityAttributeError (class_name cls) k)
  | Some _ =>
      match field_value k s with
      | Ok (v, _) => Ok (tt, with_fld_attrs (dict_set k v (fld_attrs s)) s)
      | Raise e => Raise e
      end
  end.
Proof.
  unfold set_fld_attr_on_self, bind, try_except, raise, setattr, modify.
  rewrite getattr_eq. destruct (lookup_attr cls (fld_attrs s) k); [|reflexivity].
  destruct (field_value k s) as [[v s']|e] eqn:Hv; [|reflexivity].
  now rewrite (field_value_state _ _ _ _ Hv).
Qed.

Lemma lookup_attr_set_same cls k v a : lookup_attr cls (dict_set k v a) k = Some v.
Proof. unfold lookup_attr. now rewrite dict_get_set_same. Qed.

Lemma lookup_attr_set_mono cls k v a k' :
  lookup_attr cls a k' <> None -> lookup_attr cls (dict_set k v a) k' <> None.
Proof.
  destruct (String.eqb_spec k k') as [->|Hne].
  - intros _. now rewrite lookup_attr_set_same.
  - unfold lookup_attr. now rewrite dict_get_set_other.
Qed.

(** When the loop of [set_fld_attrs_on_self] returns, only the field
    attributes have changed, and every key it went through is set. *)
Lemma set_fld_attrs_loop_ok cls keys : forall s s',
  for_each keys (set_fld_attr_on_self cls) s = Ok (tt, s') ->
  s' = with_fld_attrs (fld_attrs s') s
  /\ (forall k, lookup_attr cls (fld_attrs s) k <> None ->
                lookup_attr cls (fld_attrs s') k <> None)
  /\ (forall k, ~ In k keys -> dict_get k (fld_attrs s') = dict_get k (fld_attrs s))
  /\ (forall k, In k keys ->
        exists v, field_value k s = Ok (v, s)
                  /\ dict_get k (fld_attrs s') = Some v).
Proof.
  induction keys as [|k keys IH]; intros s s' H.
  - cbn in H. injection H as <-. repeat split.
    + now destruct s.
    + auto.
    + intros k [].
  - cbn [for_each] in H. unfold bind in H. rewrite set_fld_attr_on_self_eq in H.
    destruct (lookup_attr cls (fld_attrs s) k) eqn:Hk; [|discriminate].
    destruct (field_value k s) as [[v s0]|e] eqn:Hv; [|discriminate].
    pose proof (field_value_state _ _ _ _ Hv) as ->.
    apply IH in H as (Hs' & Hmono & Hframe & Hset). cbn [fld_attrs with_fld_attrs] in *.
    repeat split.
    + rewrite Hs'. now destruct s.
    + intros k' Hk'. apply Hmono. now apply lookup_attr_set_mono.
    + intros k' Hnin. rewrite Hframe by (intros Hin; apply Hnin; now right).
      apply dict_get_set_other. intros ->. apply Hnin. now left.
    + intros k' [<-|Hin].
      * exists v. split; [assumption|].
        destruct (in_dec string_dec k keys) as [Hin|Hnin].
        -- destruct (Hset k Hin) as (v' & Hv' & Hget).
           rewrite field_value_attrs, Hv in Hv'. now injection Hv' as <-.
        -- rewrite Hframe by assumption. apply dict_get_set_same.
      * destruct (Hset k' Hin) as (v' & Hv' & Hget). exists v'. split; [|assumption].
        rewrite field_value_attrs in Hv'.
        destruct (field_value k' s) as [[w s1]|e'] eqn:Hw; [|discriminate].
        pose proof (field_value_state _ _ _ _ Hw) as ->. congruence.
Qed.

Lemma set_fld_attrs_on_self_ok cls s s' :
  set_fld_attrs_on_self cls s = Ok (tt, s') ->
  s' = with_fld_attrs (fld_attrs s') s
  /\ readable cls (fld_attrs s') = true
  /\ (forall k, In k (dict_keys (get_required_fields cls)) ->
        exists v, field_value k s = Ok (v, s)
                  /\ dict_get k (fld_attrs s') = Some v).
Proof.
  intros H. apply set_fld_attrs_loop_ok in H as (Hs' & _ & _ & Hset).
  repeat split; [assumption| |assumption].
  unfold readable. apply forallb_forall. intros k Hin.
  destruct (Hset k Hin) as (v & _ & Hget). unfold lookup_attr. now rewrite Hget.
Qed.

(** The loop returns when every key is a readable attribute and has a
    value to take. *)
Lemma set_fld_attrs_loop_total cls keys : forall s,
  (forall k, In k keys ->
     lookup_attr cls (fld_attrs s) k <> None
     /\ exists v, field_value k s = Ok (v, s)) ->
  exists s', for_each keys (set_fld_attr_on_self cls) s = Ok (tt, s').
Proof.
  induction keys as [|k keys IH]; intros s H.
  - exists s. reflexivity.
  - cbn [for_each]. unfold bind. rewrite set_fld_attr_on_self_eq.
    destruct (H k (or_introl eq_refl)) as (Hk & v & Hv).
    destruct (lookup_attr cls (fld_attrs s) k); [|contradiction].
    rewrite Hv. apply IH. intros k' Hin.
    destruct (H k' (or_intror Hin)) as (Hk' & v' & Hv'). split.
    + cbn [fld_attrs with_fld_attrs]. now apply lookup_attr_set_mono.
    + exists v'. now rewrite field_value_attrs, Hv'.
Qed.

(** ** Lines 164-186 as a whole *)

Lemma assess_required_fields_eq cls s s1 r :
  set_fld_attrs_on_self cls s = Ok (tt, s1) ->
  _missing_data s = [] ->
  reasons_ineligible s = Some r ->
  assess_required_fields cls s = Ok (tt, assessed cls s1 r).
Proof.
  intros Hset Hmd Hre.
  destruct (set_fld_attrs_on_self_ok _ _ _ Hset) as (Hs1 & Hread & _).
  unfold assess_required_fields. unfold bind at 1. rewrite Hset.
  unfold bind at 1. unfold modify at 1.
  unfold assessed. set (a1 := fld_attrs s1) in *. rewrite Hs1. clear Hs1 Hset.
  destruct s as [md vb cd e c mo re a]. cbn in Hmd, Hre. subst md re.
  cbn [with_fld_attrs with_eligible _missing_data verbose cleaned_data eligible conf
       model_obj reasons_ineligible fld_attrs].
  unfold bind, with_eligible, with_fld_attrs.
  cbn [_missing_data verbose cleaned_data eligible conf model_obj reasons_ineligible
       fld_attrs].
  rewrite merge_missing_data_eq by assumption. cbv beta iota zeta.
  rewrite rule_loop_eq; [|assumption|auto|reflexivity].
  reflexivity.
Qed.

(** ** The duplicated test *)

Lemma bind_ext {A B} (m : M A) (f g : A -> M B) s :
  (forall a s', f a s' = g a s') -> bind m f s = bind m g s.
Proof. intros H. unfold bind. destruct (m s) as [[a s']|e]; [apply H|reflexivity]. Qed.

(** Running the test a second time changes nothing: the value read is the
    same, and recording the same reason again leaves the reasons as they
    are. *)
Lemma test_criterion_twice cls k fc m s :
  (test_criterion cls k fc m ;; test_criterion cls k fc m) s =
  test_criterion cls k fc m s.
Proof.
  unfold test_criterion. destruct (value fc) as [acc|]; [|reflexivity].
  unfold bind. rewrite getattr_eq.
  destruct (lookup_attr cls (fld_attrs s) k) as [v|] eqn:Hk; [|reflexivity].
  destruct (fails_criterion acc v) eqn:Hf; cbn [ret].
  - unfold reasons_update, modify.
    destruct s as [md vb cd e c mo [r|] a];
      cbn [reasons_ineligible fld_attrs] in *; [|reflexivity].
    unfold with_eligible, with_reasons_ineligible.
    cbn [_missing_data verbose cleaned_data eligible conf model_obj
         reasons_ineligible fld_attrs].
    rewrite getattr_eq. cbn [fld_attrs]. rewrite Hk, Hf.
    cbn [reasons_ineligible conf]. rewrite !dict_update_single, dict_set_idem.
    reflexivity.
  - rewrite getattr_eq, Hk, Hf. reflexivity.
Qed.

(** C5. The rule-evaluation loop, whose body makes the same test twice in
    a row, and the loop that makes it once give the same result on every
    evaluator state, whatever the required-fields table, the values of the
    fields and the verbose flag: the same exception, or the same evaluator,
    so the same verdict and the same reasons. *)
Theorem rule_loop_single_test cls s :
  for_each (get_required_fields cls) (assess_field cls) s =
  for_each (get_required_fields cls) (assess_field_once cls) s.
Proof.
  revert s. induction (get_required_fields cls) as [|[k fc] entries IH]; intros s.
  - reflexivity.
  - cbn [for_each].
    assert (Hbody : assess_field cls (k, fc) s = assess_field_once cls (k, fc) s).
    { unfold assess_field, assess_field_once.
      apply bind_ext. intros md s1.
      destruct (negb (dict_in k md)); [|reflexivity].
      destruct (truthy_accepted (value fc)); [|reflexivity].
      apply bind_ext. intros m s2. apply test_criterion_twice. }
    unfold bind. rewrite Hbody.
    destruct (assess_field_once cls (k, fc) s) as [[[] s']|e]; [apply IH|reflexivity].
Qed.

(** ** The gender evaluator *)

(** C10. Whatever the gender given, [eligible] is true exactly when the
    gender is male or female; an accepted gender leaves [reasons_ineligible]
    unset, and any other gender gives [eligible = False] and the one-element
    list naming it.  For "X": not eligible, ["X is an invalid gender."]. *)
Theorem gender_evaluator_verdict (gender : pyval) :
  (GenderEvaluator.eligible (GenderEvaluator.__init__ gender) = true
   <-> gender = PStr MALE \/ gender = PStr FEMALE)
  /\ GenderEvaluator.__init__ gender =
     (if GenderEvaluator.eligible (GenderEvaluator.__init__ gender)
      then GenderEvaluator.mk true None
      else GenderEvaluator.mk false (Some [py_str gender ++ " is an invalid gender."]))
  /\ GenderEvaluator.__init__ (PStr "X") =
     GenderEvaluator.mk false (Some ["X is an invalid gender."]).
Proof.
  assert (Hin : py_in gender [PStr MALE; PStr FEMALE] = true
                <-> gender = PStr MALE \/ gender = PStr FEMALE).
  { unfold py_in. cbn [existsb]. rewrite orb_false_r, orb_true_iff.
    now rewrite !py_eq_str. }
  unfold GenderEvaluator.__init__, GenderEvaluator.init_with,
    GenderEvaluator.eligible_gender.
  destruct (py_in gender [PStr MALE; PStr FEMALE]) eqn:Hg; cbn.
  - repeat split; tauto.
  - repeat split; tauto.
Qed.

(** ** The constructor, step by step *)

Lemma _assess_eligibility_eq cls s :
  _assess_eligibility cls s =
  match assess_required_fields cls s with
  | Ok (_, s1) => if is_eligible s1 then assess_eligibility cls s1 else Ok (tt, s1)
  | Raise e => Raise e
  end.
Proof.
  unfold _assess_eligibility, bind, get, ret.
  destruct (assess_required_fields cls s) as [[[] s1]|e]; [|reflexivity].
  now destruct (is_eligible s1).
Qed.

Lemma check_result_state s u s' : check_result s = Ok (u, s') -> s' = s.
Proof.
  unfold check_result.
  repeat match goal with |- context [if ?b then _ else _] => destruct b end;
    congruence.
Qed.

(** What the checks of lines 101-125 let through. *)
Lemma check_result_ok s u s' :
  check_result s = Ok (u, s') ->
  str_in (eligible s) (eligible_values_list (conf s)) = true
  /\ eligible s <> ""
  /\ (exists r, reasons_ineligible s = Some r)
  /\ (eligible s = is_eligible_value (conf s) <-> reasons_ineligible s = Some []).
Proof.
  unfold check_result, is_eligible, reasons_truthy.
  destruct (str_in (eligible s) (eligible_values_list (conf s))); cbn [negb];
    [|discriminate].
  destruct (String.eqb_spec (eligible s) ""); cbn [orb]; [discriminate|].
  destruct (reasons_ineligible s) as [r|]; cbn [orb]; [|discriminate].
  destruct (String.eqb_spec (eligible s) (is_eligible_value (conf s))) as [He|He];
    destruct r as [|x r]; cbn; try discriminate; intros _;
    repeat split; eauto; try congruence; try discriminate.
Qed.

Lemma _set_fld_attrs_on_model_eq cls s :
  _set_fld_attrs_on_model cls s =
  match reasons_ineligible s, model_obj s with
  | Some d, Some m =>
      let m2 := model_setattr (eligible_fld_name (conf s)) (PStr (eligible s))
                  (model_setattr (reasons_ineligible_fld_name (conf s))
                                 (joined_reasons d) m) in
      set_fld_attrs_on_model cls (with_model_obj (Some m2) s)
  | Some _, None =>
      Raise (AttributeError "NoneType" (reasons_ineligible_fld_name (conf s)))
  | None, _ => Raise (AttributeError "NoneType" "values")
  end.
Proof.
  unfold _set_fld_attrs_on_model.
  destruct (reasons_ineligible s), (model_obj s); reflexivity.
Qed.

Lemma init_eq cls a :
  __init__ cls a =
  match _assess_eligibility cls (initial_self cls a) with
  | Ok (_, s) =>
      match check_result s with
      | Ok _ =>
          match model_obj s with
          | Some _ =>
              match _set_fld_attrs_on_model cls s with
              | Ok (_, s') => Ok s'
              | Raise e => Raise e
              end
          | None => Ok s
          end
      | Raise e => Raise e
      end
  | Raise e => Raise e
  end.
Proof.
  unfold __init__, bind, get, ret.
  destruct (_assess_eligibility cls (initial_self cls a)) as [[[] s]|e]; [|reflexivity].
  destruct (check_result s) as [[[] s']|e] eqn:Hc; [|reflexivity].
  rewrite (check_result_state _ _ _ Hc).
  destruct (model_obj s); [|reflexivity].
  destruct (_set_fld_attrs_on_model cls s) as [[[] s'']|e]; reflexivity.
Qed.

(** An evaluator [__init__] returns went through the checks; it is the
    assessed evaluator when there is no record, and otherwise what the hook
    [set_fld_attrs_on_model] made of the assessed evaluator holding the
    written record. *)
Lemma init_ok cls a s :
  __init__ cls a = Ok s ->
  exists s1, _assess_eligibility cls (initial_self cls a) = Ok (tt, s1)
             /\ check_result s1 = Ok (tt, s1)
             /\ match model_obj s1, reasons_ineligible s1 with
                | None, _ => s = s1
                | Some m, Some d =>
                    set_fld_attrs_on_model cls
                      (with_model_obj (Some (written s1 d m)) s1) = Ok (tt, s)
                | Some _, None => False
                end.
Proof.
  rewrite init_eq.
  destruct (_assess_eligibility cls (initial_self cls a)) as [[[] s1]|e]; [|discriminate].
  destruct (check_result s1) as [[[] s1']|e] eqn:Hc; [|discriminate].
  pose proof (check_result_state _ _ _ Hc) as ->.
  intros H. exists s1. split; [reflexivity|]. split; [exact Hc|].
  destruct (model_obj s1) as [m|] eqn:Hm.
  - rewrite _set_fld_attrs_on_model_eq, Hm in H.
    destruct (reasons_ineligible s1) as [d|] eqn:Hr; [|discriminate]. cbv zeta in H.
    fold (written s1 d m) in H.
    destruct (set_fld_attrs_on_model cls _) as [[[] s2]|e]; [|discriminate].
    now injection H as <-.
  - now injection H as <-.
Qed.

(** The hook of the base class leaves the evaluator as it is. *)
Lemma default_hook_keeps_verdict : keeps_verdict set_fld_attrs_on_model_default.
Proof. intros s u s' [= <- <-]. auto. Qed.

(** With no record, or a hook that leaves the result alone, the evaluator
    [__init__] returns has the verdict, the eligible token and the reasons
    that went through the checks. *)
Lemma init_ok_kept cls a s :
  __init__ cls a = Ok s ->
  exists s1, _assess_eligibility cls (initial_self cls a) = Ok (tt, s1)
             /\ check_result s1 = Ok (tt, s1)
             /\ (model_obj s1 = None \/ keeps_verdict (set_fld_attrs_on_model cls) ->
                 eligible s = eligible s1
                 /\ is_eligible_value (conf s) = is_eligible_value (conf s1)
                 /\ reasons_ineligible s = reasons_ineligible s1).
Proof.
  intros H. apply init_ok in H as (s1 & Ha & Hc & Hs). exists s1.
  split; [exact Ha|]. split; [exact Hc|].
  destruct (model_obj s1) as [m|] eqn:Hm.
  - intros [Hnone|Hkeeps]; [discriminate|].
    destruct (reasons_ineligible s1) as [d|] eqn:Hr; [|contradiction].
    apply Hkeeps in Hs as (He & Ht & Hrs).
    cbn [eligible conf reasons_ineligible with_model_obj] in He, Ht, Hrs.
    rewrite Hr in Hrs. auto.
  - intros _. subst s. auto.
Qed.

Lemma with_missing_data_same s : with_missing_data (_missing_data s) s = s.
Proof. now destruct s. Qed.

Lemma missing_response_state cls acc entry s acc' s' :
  missing_response cls acc entry s = Ok (acc', s') -> s' = s.
Proof.
  destruct entry as [k fc]. unfold missing_response.
  destruct (negb (ignore_if_missing fc)); [|unfold ret; congruence].
  unfold bind. rewrite getattr_eq.
  destruct (lookup_attr cls (fld_attrs s) k) as [v|]; [|discriminate].
  destruct (truthy v); [|unfold ret; congruence].
  destruct (_ && _); unfold ret; congruence.
Qed.

Lemma missing_responses_state cls entries : forall acc s acc' s',
  missing_responses cls acc entries s = Ok (acc', s') -> s' = s.
Proof.
  induction entries as [|entry entries IH]; intros acc s acc' s' H.
  - cbn in H. unfold ret in H. congruence.
  - cbn [missing_responses] in H. unfold bind in H.
    destruct (missing_response cls acc entry s) as [[acc1 s1]|e] eqn:Hs; [|discriminate].
    apply missing_response_state in Hs. subst s1. eauto.
Qed.

(** The property fills the cache and touches nothing else. *)
Lemma missing_data_frame cls s md s' :
  missing_data cls s = Ok (md, s') -> s' = with_missing_data md s.
Proof.
  unfold missing_data, bind, get, ret, modify.
  destruct (negb (dict_truthy (_missing_data s))).
  - destruct (missing_responses cls [] (get_required_fields cls) s) as [[rs s0]|e] eqn:Hr;
      [|discriminate].
    apply missing_responses_state in Hr. subst s0.
    cbn. intros [= <- <-]. reflexivity.
  - intros [= <- <-]. symmetry. apply with_missing_data_same.
Qed.

(** ** The verdict and the reasons agree *)

(** The statement C1 makes of a mismatch does not hold: the hook of
    [undecided_class] leaves a verdict other than the eligible token with
    no reason, and the constructor raises [ScreeningEligibilityError], the
    check of line 101 coming first, not the invalid-combination error. *)
Lemma mismatch_outside_values_list :
  exists s1,
    _assess_eligibility undecided_class
      (initial_self undecided_class (with_cleaned_data [])) = Ok (tt, s1)
    /\ eligible s1 <> is_eligible_value (conf s1)
    /\ reasons_ineligible s1 = Some []
    /\ __init__ undecided_class (with_cleaned_data [])
       = Raise (ScreeningEligibilityError InvalidValue).
Proof.
  eexists. split; [reflexivity|]. cbn. repeat split. discriminate.
Qed.

(** Nor does the first statement of C1 hold of every subclass:
    [set_fld_attrs_on_model] is called on line 202, after the checks of lines
    101-125.  The hook of [late_reason_class] records a reason then, and the
    constructor returns an evaluator with the eligible token for verdict and
    a reason. *)
Lemma record_hook_returns_mismatch :
  exists s,
    __init__ late_reason_class (with_record record_aged_70) = Ok s
    /\ eligible s = is_eligible_value (conf s)
    /\ reasons_ineligible s = Some [("bmi", "BMI over 40")].
Proof.
  eexists. split; [reflexivity|]. split; reflexivity.
Qed.

(** C1, amended.  When the constructor returns, the verdict and the
    reasons the assessment ended with, hook [assess_eligibility] included,
    agree: the verdict is the eligible token exactly when the reasons are
    empty.  The evaluator returned is the assessed one when it holds no
    record, and otherwise what [set_fld_attrs_on_model] returned on the
    assessed evaluator holding the written record; so it has the eligible
    token for verdict exactly when its reasons are empty whenever it holds no
    record or that hook leaves the verdict, the eligible token and the
    reasons alone, as the hook of the base class does.  When the assessment
    ends with the eligible token and reasons, or with another verdict and no
    reason, the constructor raises: the invalid-combination error when the
    verdict is a non-empty member of [eligible_values_list],
    [ScreeningEligibilityError] otherwise. *)
Theorem verdict_agrees_with_reasons cls a :
  (forall s, __init__ cls a = Ok s ->
     exists s1,
       _assess_eligibility cls (initial_self cls a) = Ok (tt, s1)
       /\ (eligible s1 = is_eligible_value (conf s1)
           <-> reasons_ineligible s1 = Some [])
       /\ match model_obj s1, reasons_ineligible s1 with
          | None, _ => s = s1
          | Some m, Some d =>
              set_fld_attrs_on_model cls
                (with_model_obj (Some (written s1 d m)) s1) = Ok (tt, s)
          | Some _, None => False
          end
       /\ (model_obj s1 = None \/ keeps_verdict (set_fld_attrs_on_model cls) ->
           (eligible s = is_eligible_value (conf s)
            <-> reasons_ineligible s = Some [])))
  /\ keeps_verdict set_fld_attrs_on_model_default
  /\ (forall s1,
        _assess_eligibility cls (initial_self cls a) = Ok (tt, s1) ->
        (is_eligible s1 = true /\ reasons_truthy s1 = true)
        \/ (is_eligible s1 = false /\ reasons_ineligible s1 = Some []) ->
        __init__ cls a = Raise (mismatch_error s1)
        /\ (str_in (eligible s1) (eligible_values_list (conf s1)) = true ->
            eligible s1 <> "" ->
            exists why,
              __init__ cls a = Raise (ScreeningEligibilityInvalidCombination why))).
Proof.
  split; [|split].
  - intros s H. pose proof (init_ok _ _ _ H) as (s1 & Ha & Hc & Hs).
    pose proof (init_ok_kept _ _ _ H) as (s1' & Ha' & _ & Hkept).
    rewrite Ha in Ha'. injection Ha' as <-.
    apply check_result_ok in Hc as (_ & _ & _ & Hiff).
    exists s1. split; [exact Ha|]. split; [exact Hiff|]. split; [exact Hs|].
    intros Hcond. destruct (Hkept Hcond) as (-> & -> & ->). exact Hiff.
  - exact default_hook_keeps_verdict.
  - intros s1 H1 Hbad.
    assert (Hraise : __init__ cls a = Raise (mismatch_error s1)).
    { rewrite init_eq, H1. unfold check_result, mismatch_error.
      destruct (negb (str_in (eligible s1) (eligible_values_list (conf s1))));
        [reflexivity|].
      cbn [orb].
      destruct ((eligible s1 =? "")%string); cbn [orb]; [reflexivity|].
      unfold reasons_truthy in *.
      destruct Hbad as [[He Hr]|[He Hr]]; rewrite He.
      - destruct (reasons_ineligible s1) as [[|x r]|]; try discriminate. reflexivity.
      - rewrite Hr. reflexivity. }
    split; [exact Hraise|].
    intros Hin Hne. rewrite Hraise. unfold mismatch_error. rewrite Hin. cbn [negb].
    destruct (String.eqb_spec (eligible s1) ""); [contradiction|]. eauto.
Qed.

(** The parts at work: the evaluator returned for the record of a
    seventy-year-old, with the hook of the base class, has a verdict other
    than the eligible token and a reason; and the mismatch the hook of
    [undecided_class] leaves makes the constructor raise. *)
Lemma verdict_agrees_with_reasons_witness :
  (NO = YES <-> Some [("age_in_years", "Age In Years")] = Some (@nil (string * string)))
  /\ __init__ undecided_class (with_cleaned_data [])
     = Raise (ScreeningEligibilityError InvalidValue).
Proof.
  split.
  - destruct (proj1 (verdict_agrees_with_reasons age_class (with_record record_aged_70))
                    (mkSelf [] None None NO default_labels
                       (Some (mkModel "SubjectScreening"
                                [("age_in_years", PInt 70); ("eligible", PStr NO);
                                 ("reasons_ineligible", PStr "Age In Years");
                                 ("consented", PBool false)] 0))
                       (Some [("age_in_years", "Age In Years")])
                       [("age_in_years", PInt 70)])
                    eq_refl)
      as (s1 & _ & _ & _ & Hiff).
    exact (Hiff (or_intror default_hook_keeps_verdict)).
  - exact (proj1 (proj2 (proj2 (verdict_agrees_with_reasons undecided_class
                                   (with_cleaned_data [])))
                        (mkSelf [] None (Some []) "maybe" default_labels None
                                (Some []) [])
                        eq_refl (or_intror (conj eq_refl eq_refl)))).
Defined.

(** ** Every criterion met *)

Lemma attr_value_get cls a k v : dict_get k a = Some v -> attr_value cls a k = v.
Proof. unfold attr_value, lookup_attr. now intros ->. Qed.

Lemma reasons_after_unchanged cls vb a entries : forall r,
  (forall e, In e entries -> field_fails cls a e = false) ->
  reasons_after cls vb a entries r = r.
Proof.
  unfold reasons_after.
  induction entries as [|e entries IH]; intros r H; cbn [fold_left]; [reflexivity|].
  rewrite (H e) by now left. apply IH. intros e' Hin. apply H. now right.
Qed.

Lemma existsb_none {A} (f : A -> bool) (l : list A) :
  (forall x, In x l -> f x = false) -> existsb f l = false.
Proof.
  intros H. destruct (existsb f l) eqn:He; [|reflexivity].
  apply existsb_exists in He as (x & Hin & Hx). now rewrite (H x Hin) in Hx.
Qed.

Lemma is_eligible_iff s :
  is_eligible s = true <-> eligible s = is_eligible_value (conf s).
Proof. unfold is_eligible. apply String.eqb_eq. Qed.

(** The evaluator on which the required fields have just been set is the
    initial one but for its field attributes. *)
Lemma resolved_state cls a s1 :
  set_fld_attrs_on_self cls (initial_self cls a) = Ok (tt, s1) ->
  _missing_data s1 = [] /\ reasons_ineligible s1 = Some []
  /\ conf s1 = conf (initial_self cls a)
  /\ model_obj s1 = arg_model_obj a
  /\ verbose s1 = arg_verbose a
  /\ cleaned_data s1 = arg_cleaned_data a
  /\ readable cls (fld_attrs s1) = true.
Proof.
  intros H. apply set_fld_attrs_on_self_ok in H as (-> & Hr & _).
  cbn. repeat split. exact Hr.
Qed.

(** C2. When every required field has been set on the evaluator, none is
    missing, every value meets the accepted value of its descriptor, and
    the hooks are the base class's, the assessment ends with the eligible
    token, no reason, and [is_eligible] true; and the constructor returns
    that evaluator whenever the eligible token is a non-empty member of
    [eligible_values_list].  [is_eligible] is true exactly when the verdict
    is the eligible token. *)
Theorem eligible_when_all_criteria_met cls a s1 :
  assess_eligibility cls = assess_eligibility_default ->
  set_fld_attrs_on_model cls = set_fld_attrs_on_model_default ->
  set_fld_attrs_on_self cls (initial_self cls a) = Ok (tt, s1) ->
  (forall k fc v,
      In (k, fc) (get_required_fields cls) ->
      dict_get k (fld_attrs s1) = Some v ->
      is_missing fc v = false
      /\ (truthy_accepted (value fc) = true -> fails fc v = false)) ->
  let token := is_eligible_value (conf (initial_self cls a)) in
  (exists s2,
      _assess_eligibility cls (initial_self cls a) = Ok (tt, s2)
      /\ eligible s2 = token
      /\ reasons_ineligible s2 = Some []
      /\ is_eligible s2 = true)
  /\ (str_in token (eligible_values_list (conf (initial_self cls a))) = true ->
      token <> "" ->
      exists s,
        __init__ cls a = Ok s
        /\ eligible s = token
        /\ reasons_ineligible s = Some []
        /\ is_eligible s = true)
  /\ (forall s, is_eligible s = true <-> eligible s = is_eligible_value (conf s)).
Proof.
  intros Hhook Hmhook Hset Hall token.
  destruct (set_fld_attrs_on_self_ok _ _ _ Hset) as (_ & _ & Hkeys).
  destruct (resolved_state _ _ _ Hset) as (_ & _ & Hconf & Hmo & Hvb & Hcd & Hread).
  assert (Hval : forall k fc, In (k, fc) (get_required_fields cls) ->
            exists v, dict_get k (fld_attrs s1) = Some v
                      /\ attr_value cls (fld_attrs s1) k = v).
  { intros k fc Hin. destruct (Hkeys k) as (v & _ & Hget).
    - unfold dict_keys. change k with (fst (k, fc)). now apply in_map.
    - exists v. split; [assumption|now apply attr_value_get]. }
  assert (Hmd : missing_data_of cls (fld_attrs s1) = []).
  { apply missing_data_of_nil. intros k fc Hin.
    destruct (Hval k fc Hin) as (v & Hget & ->). now apply (Hall k fc v). }
  assert (Hff : forall e, In e (get_required_fields cls) ->
            field_fails cls (fld_attrs s1) e = false).
  { intros [k fc] Hin. unfold field_fails. cbn [fst snd].
    destruct (Hval k fc Hin) as (v & Hget & ->).
    destruct (Hall k fc v Hin Hget) as [_ Hok].
    destruct (truthy_accepted (value fc)); [|now rewrite andb_false_r].
    rewrite Hok by reflexivity. now rewrite andb_false_r. }
  assert (Hassess : _assess_eligibility cls (initial_self cls a) =
            Ok (tt, mkSelf [] (arg_verbose a) (arg_cleaned_data a) token
                           (conf (initial_self cls a)) (arg_model_obj a)
                           (Some []) (fld_attrs s1))).
  { rewrite _assess_eligibility_eq.
    rewrite (assess_required_fields_eq cls _ s1 []) by (assumption || reflexivity).
    unfold assessed. rewrite Hmd, (existsb_none _ _ Hff), reasons_after_unchanged by assumption.
    cbn [dict_truthy dict_update fold_left]. rewrite Hconf, Hmo, Hvb, Hcd. fold token.
    unfold is_eligible. cbn [eligible conf]. fold token. rewrite String.eqb_refl.
    rewrite Hhook. reflexivity. }
  split; [|split; [|apply is_eligible_iff]].
  - eexists. split; [exact Hassess|]. cbn. repeat split.
    unfold is_eligible. cbn. fold token. apply String.eqb_refl.
  - intros Hin Hne. rewrite init_eq, Hassess.
    unfold check_result, is_eligible, reasons_truthy. cbn [eligible conf reasons_ineligible].
    fold token. rewrite Hin, String.eqb_refl.
    destruct (String.eqb_spec token ""); [contradiction|].
    cbn [negb andb orb model_obj].
    destruct (arg_model_obj a) as [m|].
    + rewrite _set_fld_attrs_on_model_eq.
      cbn [reasons_ineligible model_obj]. cbv zeta. rewrite Hmhook.
      unfold set_fld_attrs_on_model_default, ret.
      eexists. split; [reflexivity|]. cbn. repeat split.
      unfold is_eligible. cbn. fold token. apply String.eqb_refl.
    + eexists. split; [reflexivity|]. cbn. repeat split.
      unfold is_eligible. cbn. fold token. apply String.eqb_refl.
Qed.

(** Age 30 against [range(18, 65)]: the premises of C2 hold and the
    constructor returns the eligible verdict. *)
Lemma eligible_when_all_criteria_met_witness :
  exists s,
    __init__ age_class (with_cleaned_data [("age_in_years", PInt 30)]) = Ok s
    /\ eligible s = YES
    /\ reasons_ineligible s = Some []
    /\ is_eligible s = true.
Proof.
  refine (proj1 (proj2 (eligible_when_all_criteria_met age_class
            (with_cleaned_data [("age_in_years", PInt 30)])
            (with_fld_attrs [("age_in_years", PInt 30)]
               (initial_self age_class (with_cleaned_data [("age_in_years", PInt 30)])))
            eq_refl eq_refl eq_refl _)) eq_refl _).
  - intros k fc v [[= <- <-]|[]]. cbn. intros [= <-]. split; reflexivity.
  - discriminate.
Defined.

(** ** Missing data *)

Lemma dict_set_keyed {V} (f : string -> V) k d :
  Forall (fun kv => snd kv = f (fst kv)) d ->
  Forall (fun kv => snd kv = f (fst kv)) (dict_set k (f k) d).
Proof.
  induction 1 as [|[k' v'] d Hkv Hd IH]; cbn [dict_set].
  - constructor; [reflexivity|constructor].
  - destruct (k' =? k)%string; constructor; auto.
Qed.

Lemma dict_update_keyed {V W} (f : string -> W) (l : dict V) : forall d,
  Forall (fun kv => snd kv = f (fst kv)) d ->
  Forall (fun kv => snd kv = f (fst kv))
         (dict_update d (map (fun kv => (fst kv, f (fst kv))) l)).
Proof.
  induction l as [|[k v] l IH]; intros d Hd; [exact Hd|].
  cbn [map fst]. rewrite dict_update_cons. apply IH. now apply dict_set_keyed.
Qed.

(** Merging the missing data into empty reasons gives each missing field
    its message. *)
Lemma missing_data_of_merged cls a k :
  dict_get k (dict_update [] (missing_data_of cls a)) =
  dict_get k (missing_data_of cls a).
Proof.
  assert (Hk : Forall (fun kv => snd kv = not_answered (fst kv)) (missing_data_of cls a)).
  { unfold missing_data_of, missing_messages. apply dict_update_keyed. constructor. }
  assert (Hmap : map (fun kv => (fst kv, not_answered (fst kv))) (missing_data_of cls a)
                 = missing_data_of cls a).
  { induction Hk as [|[k' m] d Hkv Hd IH]; [reflexivity|].
    cbn in *. now rewrite IH, Hkv. }
  rewrite <- Hmap at 1. rewrite dict_update_keyed_get.
  rewrite missing_data_of_get, missing_data_of_in. reflexivity.
Qed.

(** The rule loop leaves the reason of a missing field alone. *)
Lemma reasons_after_missing cls vb a k entries : forall r,
  missing_in cls a (get_required_fields cls) k = true ->
  dict_get k (reasons_after cls vb a entries r) = dict_get k r.
Proof.
  unfold reasons_after.
  induction entries as [|e entries IH]; intros r Hk; cbn [fold_left]; [reflexivity|].
  rewrite IH by assumption.
  destruct (field_fails cls a e) eqn:Hf; [|reflexivity].
  apply dict_get_set_other. intros Heq. unfold field_fails in Hf.
  rewrite Heq, Hk in Hf. discriminate.
Qed.

(** C3. Once the required fields are set on the evaluator: a field whose
    descriptor does not ignore missing values, and whose value is falsy or
    is the descriptor's missing value, is in [missing_data] with its "not
    answered" message; when [missing_data] is not empty, lines 166-168
    merge its messages into the reasons and set the verdict to the default
    token; the rule loop leaves the evaluator as it is at a field of
    [missing_data]; and after the loop each missing field still has its "not
    answered" reason, the verdict being the default token or, when some
    other field failed, the ineligible token. *)
Theorem missing_fields_are_pending cls a s1 :
  set_fld_attrs_on_self cls (initial_self cls a) = Ok (tt, s1) ->
  let tentative := with_eligible (is_eligible_value (conf s1)) s1 in
  exists md merged s2,
    missing_data cls tentative = Ok (md, with_missing_data md tentative)
    /\ (forall k fc v,
          In (k, fc) (get_required_fields cls) ->
          ignore_if_missing fc = false ->
          dict_get k (fld_attrs s1) = Some v ->
          truthy v = false \/ (exists mv, missing_value fc = Some mv /\ v = PStr mv) ->
          dict_get k md
          = Some ("`" ++ title (replace "_" " " k) ++ "` not answered"))
    /\ merge_missing_data cls tentative = Ok (tt, merged)
    /\ (md <> [] ->
        eligible merged = eligible_value_default (conf merged)
        /\ reasons_ineligible merged = Some (dict_update [] md)
        /\ forall k, dict_get k (dict_update [] md) = dict_get k md)
    /\ (forall k fc,
          In (k, fc) (get_required_fields cls) ->
          dict_in k md = true ->
          assess_field cls (k, fc) merged = Ok (tt, merged))
    /\ assess_required_fields cls (initial_self cls a) = Ok (tt, s2)
    /\ (forall k r,
          dict_in k md = true ->
          reasons_ineligible s2 = Some r ->
          dict_get k r = Some (not_answered k))
    /\ (md <> [] ->
        eligible s2 = eligible_value_default (conf s2)
        \/ eligible s2 = is_ineligible_value (conf s2)).
Proof.
  intros Hset tentative.
  destruct (resolved_state _ _ _ Hset) as (Hmd0 & Hre0 & _ & _ & _ & _ & Hread).
  pose proof (assess_required_fields_eq cls _ s1 [] Hset eq_refl eq_refl) as Hall.
  set (a1 := fld_attrs s1) in *.
  set (md := missing_data_of cls a1).
  assert (Ht : tentative = mkSelf [] (verbose s1) (cleaned_data s1)
                 (is_eligible_value (conf s1)) (conf s1) (model_obj s1) (Some []) a1).
  { unfold tentative, with_eligible. now rewrite Hmd0, Hre0. }
  exists md,
    (mkSelf md (verbose s1) (cleaned_data s1)
            (if dict_truthy md then eligible_value_default (conf s1)
             else is_eligible_value (conf s1))
            (conf s1) (model_obj s1) (Some (dict_update [] md)) a1),
    (assessed cls s1 []).
  rewrite Ht. repeat split.
  - rewrite missing_data_eq; [reflexivity|assumption|now left].
  - intros k fc v Hin Hign Hget Hv. fold a1 in Hget.
    unfold md. rewrite missing_data_of_get.
    replace (missing_in cls a1 (get_required_fields cls) k) with true; [reflexivity|].
    symmetry. apply existsb_exists. exists (k, fc). split; [assumption|].
    cbn [fst snd]. rewrite String.eqb_refl, (attr_value_get cls a1 k v Hget).
    unfold is_missing. rewrite Hign. cbn [negb andb].
    destruct Hv as [->|(mv & -> & ->)]; [reflexivity|].
    apply orb_true_iff. right. now apply py_eq_str.
  - now rewrite merge_missing_data_eq.
  - destruct md; [contradiction|reflexivity].
  - intros k. apply missing_data_of_merged.
  - intros k fc Hin Hk. rewrite assess_field_eq; [|assumption|assumption|now right].
    unfold field_fails. cbn [fst snd]. fold md.
    unfold md in Hk. rewrite missing_data_of_in in Hk. rewrite Hk. reflexivity.
  - exact Hall.
  - intros k r Hk. unfold assessed. cbn [reasons_ineligible]. intros [= <-].
    fold a1. unfold md in Hk. rewrite missing_data_of_in in Hk.
    rewrite reasons_after_missing by assumption.
    rewrite missing_data_of_merged, missing_data_of_get, Hk. reflexivity.
  - intros Hne. unfold assessed. cbn [eligible conf]. fold a1 md.
    destruct (existsb _ _); [now right|].
    destruct md; [contradiction|now left].
Qed.

(** An empty age: the field is in the missing data with its message. *)
Lemma missing_fields_are_pending_witness :
  exists md,
    missing_data age_class
      (with_eligible YES
         (with_fld_attrs [("age_in_years", PNone)]
            (initial_self age_class (with_cleaned_data [("age_in_years", PNone)]))))
    = Ok (md, with_missing_data md
                (with_eligible YES
                   (with_fld_attrs [("age_in_years", PNone)]
                      (initial_self age_class
                         (with_cleaned_data [("age_in_years", PNone)])))))
    /\ dict_get "age_in_years" md = Some "`Age In Years` not answered".
Proof.
  destruct (missing_fields_are_pending age_class
              (with_cleaned_data [("age_in_years", PNone)])
              (with_fld_attrs [("age_in_years", PNone)]
                 (initial_self age_class (with_cleaned_data [("age_in_years", PNone)])))
              eq_refl)
    as (md & merged & s2 & Hmd & Hget & _).
  exists md. split; [exact Hmd|].
  apply (Hget "age_in_years" (mkFC (Some (ARange 18 65 1)) None false None) PNone).
  - left. reflexivity.
  - reflexivity.
  - reflexivity.
  - left. reflexivity.
Defined.

(** ** The test of a criterion *)

Lemma py_in_iff v l : py_in v l = true <-> exists x, In x l /\ py_eq v x = true.
Proof. unfold py_in. apply existsb_exists. Qed.

(** The members of [range(start, stop, step)] are the numbers
    [start + j * step], [j >= 0], before [stop]. *)
Lemma range_contains_iff start stop step z :
  range_contains start stop step z = true <->
  exists j, 0 <= j /\ z = start + j * step
            /\ (0 < step /\ z < stop \/ step < 0 /\ stop < z).
Proof.
  unfold range_contains. split.
  - destruct (Z.ltb_spec 0 step) as [Hs|Hs].
    + rewrite !andb_true_iff. intros [[H1 H2] H3].
      apply Z.leb_le in H1. apply Z.ltb_lt in H2. apply Z.eqb_eq in H3.
      apply Z.mod_divide in H3; [|lia]. destruct H3 as [j Hj].
      exists j. split; [nia|]. split; [lia|]. left. lia.
    + destruct (Z.ltb_spec step 0) as [Hn|Hn]; [|discriminate].
      rewrite !andb_true_iff. intros [[H1 H2] H3].
      apply Z.ltb_lt in H1. apply Z.leb_le in H2. apply Z.eqb_eq in H3.
      apply Z.mod_divide in H3; [|lia]. destruct H3 as [j Hj].
      exists j. split; [nia|]. split; [lia|]. right. lia.
  - intros (j & Hj & -> & [[Hs Hb]|[Hs Hb]]).
    + destruct (Z.ltb_spec 0 step); [|lia].
      rewrite !andb_true_iff. repeat split.
      * apply Z.leb_le. nia.
      * now apply Z.ltb_lt.
      * apply Z.eqb_eq. replace (start + j * step - start) with (j * step) by lia.
        apply Z_mod_mult.
    + destruct (Z.ltb_spec 0 step); [lia|].
      destruct (Z.ltb_spec step 0); [|lia].
      rewrite !andb_true_iff. repeat split.
      * now apply Z.ltb_lt.
      * apply Z.leb_le. nia.
      * apply Z.eqb_eq. replace (start + j * step - start) with (j * step) by lia.
        apply Z_mod_mult.
Qed.

Lemma negb_false_true b : negb b = false <-> b = true.
Proof. destruct b; split; (reflexivity || discriminate). Qed.

Lemma passes_str s v : fails_criterion (AStr s) v = false <-> v = PStr s.
Proof. cbn. rewrite negb_false_true. apply py_eq_str. Qed.

Lemma passes_list l v :
  fails_criterion (AList l) v = false <-> exists x, In x l /\ py_eq v x = true.
Proof. cbn. rewrite negb_false_true. apply py_in_iff. Qed.

Lemma passes_tuple l v :
  fails_criterion (ATuple l) v = false <-> exists x, In x l /\ py_eq v x = true.
Proof. cbn. rewrite negb_false_true. apply py_in_iff. Qed.

Lemma passes_range start stop step v :
  fails_criterion (ARange start stop step) v = false <->
  exists z j, as_int v = Some z /\ 0 <= j /\ z = start + j * step
              /\ (0 < step /\ z < stop \/ step < 0 /\ stop < z).
Proof.
  cbn. rewrite negb_false_true. unfold py_in_range.
  destruct (as_int v) as [z|].
  - rewrite range_contains_iff. split.
    + intros (j & H). exists z, j. now split.
    + intros (z' & j & [= <-] & H). now exists j.
  - split; [discriminate|]. intros (z & j & H & _). discriminate.
Qed.

Lemma getattr_same_attrs cls k s v s' :
  getattr cls k s = Ok (v, s) -> fld_attrs s' = fld_attrs s ->
  getattr cls k s' = Ok (v, s').
Proof.
  rewrite !getattr_eq. intros H ->.
  destruct (lookup_attr cls (fld_attrs s) k); [|discriminate]. congruence.
Qed.

(** C4. At a declared field that is not in the missing data and whose
    descriptor has a truthy accepted value, the rule loop tests the value
    [v] of the field: against a string it passes exactly when [v] is that
    string, against a list, tuple or range exactly when [v] is a member.
    When the test fails the field gets its message in the reasons (at the
    end, when it had none), the descriptor's or else the title-cased field
    name with underscores turned to spaces, followed in verbose mode by
    ". Got <field>=<value>", and the verdict becomes the ineligible token;
    when it passes nothing changes.  With [age_in_years] accepted in
    [range(18, 65)] and the value 70, the constructor returns the reasons
    [{age_in_years: "Age In Years"}] and the ineligible verdict. *)
Theorem failed_criterion_is_recorded cls k fc acc s md s' v r :
  missing_data cls s = Ok (md, s') ->
  dict_in k md = false ->
  value fc = Some acc ->
  truthy_accepted (value fc) = true ->
  getattr cls k s = Ok (v, s) ->
  reasons_ineligible s = Some r ->
  let base := match msg fc with
              | Some m => if (m =? "")%string then replace "_" " " (title k) else m
              | None => replace "_" " " (title k)
              end in
  let message := if verbose_on s
                 then base ++ ". Got " ++ k ++ "=" ++ py_str v
                 else base in
  assess_field cls (k, fc) s =
    Ok (tt, if fails_criterion acc v
            then with_eligible (is_ineligible_value (conf s))
                   (with_reasons_ineligible (Some (dict_set k message r)) s')
            else s')
  /\ (dict_get k r = None -> dict_set k message r = (r ++ [(k, message)])%list)
  /\ (forall t, fails_criterion (AStr t) v = false <-> v = PStr t)
  /\ (forall l, fails_criterion (AList l) v = false
                <-> exists x, In x l /\ py_eq v x = true)
  /\ (forall l, fails_criterion (ATuple l) v = false
                <-> exists x, In x l /\ py_eq v x = true)
  /\ (forall start stop step,
        fails_criterion (ARange start stop step) v = false
        <-> exists z j, as_int v = Some z /\ 0 <= j /\ z = start + j * step
                        /\ (0 < step /\ z < stop \/ step < 0 /\ stop < z))
  /\ __init__ age_class (with_cleaned_data [("age_in_years", PInt 70)]) =
     Ok (mkSelf [] None (Some [("age_in_years", PInt 70)])
                (is_ineligible_value default_labels) default_labels None
                (Some [("age_in_years", "Age In Years")])
                [("age_in_years", PInt 70)]).
Proof.
  intros Hmd Hk Hacc Htr Hv Hr base message.
  split; [|split; [apply dict_set_fresh|]].
  - pose proof (missing_data_frame _ _ _ _ Hmd) as Hs'.
    assert (Hv' : getattr cls k s' = Ok (v, s')).
    { apply getattr_same_attrs with (s := s); [assumption|]. now rewrite Hs'. }
    unfold assess_field. unfold bind at 1. rewrite Hmd, Hk, Htr. cbn [negb].
    assert (Hmsg : failure_message cls k fc s' = Ok (message, s')).
    { unfold failure_message, bind, get, ret. fold (default_message k).
      replace (verbose_on s') with (verbose_on s) by (now rewrite Hs').
      unfold message, base, default_message.
      destruct (verbose_on s); [|reflexivity]. now rewrite Hv'. }
    unfold bind at 1. rewrite Hmsg. rewrite test_criterion_twice.
    unfold test_criterion. rewrite Hacc. unfold bind at 1. rewrite Hv'.
    destruct (fails_criterion acc v); [|reflexivity].
    unfold bind, reasons_update, modify.
    replace (reasons_ineligible s') with (Some r) by (now rewrite Hs').
    rewrite dict_update_single. cbn [conf with_reasons_ineligible].
    now rewrite Hs'.
  - repeat split; try (apply passes_str); try (apply passes_list);
      try (apply passes_tuple); try (apply passes_range).
Qed.

(** Age 70 against [range(18, 65)], at the evaluator as the rule loop finds
    it: the field is recorded and the verdict becomes the ineligible
    token. *)
Lemma failed_criterion_is_recorded_witness :
  assess_field age_class ("age_in_years", mkFC (Some (ARange 18 65 1)) None false None)
    (mkSelf [] None (Some [("age_in_years", PInt 70)]) YES default_labels None
            (Some []) [("age_in_years", PInt 70)])
  = Ok (tt, mkSelf [] None (Some [("age_in_years", PInt 70)]) NO default_labels None
                   (Some [("age_in_years", "Age In Years")])
                   [("age_in_years", PInt 70)]).
Proof.
  exact (proj1 (failed_criterion_is_recorded age_class "age_in_years"
                  (mkFC (Some (ARange 18 65 1)) None false None) (ARange 18 65 1)
                  (mkSelf [] None (Some [("age_in_years", PInt 70)]) YES default_labels
                          None (Some []) [("age_in_years", PInt 70)])
                  []
                  (mkSelf [] None (Some [("age_in_years", PInt 70)]) YES default_labels
                          None (Some []) [("age_in_years", PInt 70)])
                  (PInt 70) []
                  eq_refl eq_refl eq_refl eq_refl eq_refl eq_refl)).
Defined.

(** ** The hook *)

(** C6 as stated does not hold when the default token is the eligible
    token: with [eligible_value_default=YES] and the age left empty, the
    field is missing, the verdict after lines 166-186 is [YES], and the
    hook of [probe_class] is called. *)
Lemma hook_called_with_missing_field :
  is_missing (mkFC (Some (ARange 18 65 1)) None false None) PNone = true
  /\ set_fld_attrs_on_self probe_class
       (initial_self probe_class (with_default_token [("age_in_years", PNone)] YES))
     = Ok (tt, with_fld_attrs [("age_in_years", PNone)]
                 (initial_self probe_class
                    (with_default_token [("age_in_years", PNone)] YES)))
  /\ __init__ probe_class (with_default_token [("age_in_years", PNone)] YES)
     = Raise (Exception "assess_eligibility called").
Proof. repeat split. Qed.

Lemma missing_or_failed_verdict cls a k fc v :
  In (k, fc) (get_required_fields cls) ->
  attr_value cls a k = v ->
  missing_or_failed fc v = true ->
  missing_data_of cls a <> []
  \/ existsb (field_fails cls a) (get_required_fields cls) = true.
Proof.
  intros Hin Hv Hmf.
  destruct (missing_in cls a (get_required_fields cls) k) eqn:Hmi.
  - left. intros Hnil. rewrite <- missing_data_of_in, Hnil in Hmi. discriminate.
  - right. apply existsb_exists. exists (k, fc). split; [assumption|].
    unfold field_fails. cbn [fst snd]. rewrite Hmi, Hv. cbn [negb andb].
    unfold missing_or_failed in Hmf. apply orb_true_iff in Hmf as [Hm|Hf]; [|exact Hf].
    exfalso. assert (Hmi' : missing_in cls a (get_required_fields cls) k = true).
    { apply existsb_exists. exists (k, fc). split; [assumption|].
      cbn [fst snd]. now rewrite String.eqb_refl, Hv, Hm. }
    congruence.
Qed.

(** C6, amended.  [_assess_eligibility] calls the hook exactly when the
    verdict after lines 164-186 is the eligible token: its result is then
    the hook's on that evaluator, and otherwise that evaluator whatever the
    hook is.  The hook of the base class returns the evaluator unchanged.
    When a declared field is missing or fails its criterion, and the default
    and ineligible tokens both differ from the eligible token, the verdict is
    not the eligible token and the hook is not called. *)
Theorem hook_runs_only_when_eligible cls :
  (forall s s1,
      assess_required_fields cls s = Ok (tt, s1) ->
      _assess_eligibility cls s =
      if is_eligible s1 then assess_eligibility cls s1 else Ok (tt, s1))
  /\ (forall s, assess_eligibility_default s = Ok (tt, s))
  /\ (forall a s0 k fc v,
        set_fld_attrs_on_self cls (initial_self cls a) = Ok (tt, s0) ->
        In (k, fc) (get_required_fields cls) ->
        dict_get k (fld_attrs s0) = Some v ->
        missing_or_failed fc v = true ->
        eligible_value_default (conf s0) <> is_eligible_value (conf s0) ->
        is_ineligible_value (conf s0) <> is_eligible_value (conf s0) ->
        exists s1,
          assess_required_fields cls (initial_self cls a) = Ok (tt, s1)
          /\ is_eligible s1 = false
          /\ _assess_eligibility cls (initial_self cls a) = Ok (tt, s1)).
Proof.
  split; [|split].
  - intros s s1 H. now rewrite _assess_eligibility_eq, H.
  - reflexivity.
  - intros a s0 k fc v Hset Hin Hget Hmf Hd Hi.
    pose proof (assess_required_fields_eq cls _ s0 [] Hset eq_refl eq_refl) as Hall.
    assert (Hne : is_eligible (assessed cls s0 []) = false).
    { unfold is_eligible, assessed. cbn [eligible conf].
      destruct (missing_or_failed_verdict cls (fld_attrs s0) k fc v Hin
                  (attr_value_get _ _ _ _ Hget) Hmf) as [Hmd|Hff].
      - destruct (existsb _ _); [now apply String.eqb_neq|].
        destruct (missing_data_of cls (fld_attrs s0)); [contradiction|].
        now apply String.eqb_neq.
      - rewrite Hff. now apply String.eqb_neq. }
    exists (assessed cls s0 []). split; [exact Hall|]. split; [exact Hne|].
    now rewrite _assess_eligibility_eq, Hall, Hne.
Qed.

(** With the tokens of the base class and the age left empty, the hook of
    [probe_class], which raises, is not called: the assessment returns. *)
Lemma hook_runs_only_when_eligible_witness :
  exists s1,
    assess_required_fields probe_class
      (initial_self probe_class (with_cleaned_data [("age_in_years", PNone)]))
    = Ok (tt, s1)
    /\ is_eligible s1 = false
    /\ _assess_eligibility probe_class
         (initial_self probe_class (with_cleaned_data [("age_in_years", PNone)]))
       = Ok (tt, s1).
Proof.
  refine (proj2 (proj2 (hook_runs_only_when_eligible probe_class))
            (with_cleaned_data [("age_in_years", PNone)])
            (with_fld_attrs [("age_in_years", PNone)]
               (initial_self probe_class (with_cleaned_data [("age_in_years", PNone)])))
            "age_in_years" (mkFC (Some (ARange 18 65 1)) None false None) PNone
            eq_refl _ eq_refl eq_refl _ _).
  - left. reflexivity.
  - discriminate.
  - discriminate.
Defined.

(** ** Where the value of a field comes from *)

(** C7 as stated does not hold for an empty mapping: with a record and
    [cleaned_data={}], a mapping is supplied and has no value for the key,
    yet the value set on the evaluator is the record's 70 (line 219 tests
    the mapping for truth, and an empty one is falsy). *)
Lemma empty_mapping_reads_record :
  cleaned_data (initial_self age_class
                  (with_record_and_cleaned_data record_aged_70 [])) = Some []
  /\ set_fld_attr_on_self age_class "age_in_years"
       (initial_self age_class (with_record_and_cleaned_data record_aged_70 []))
     = Ok (tt, stored "age_in_years" (PInt 70)
                 (initial_self age_class
                    (with_record_and_cleaned_data record_aged_70 []))).
Proof. split; reflexivity. Qed.

(** C7, amended.  For a required field [k], the body of the loop of
    [set_fld_attrs_on_self]: raises the attribute error, naming the class
    and the field, when the evaluator has no attribute [k]; with a record,
    takes the value the mapping gives for [k] ([None] without the key) when
    the mapping is there and not empty, and else the record's attribute,
    raising the model-attribute error when the record has none; without a
    record, takes the mapping's value, raising the cleaned-data-key error
    when the key is absent; and stores the value as attribute [k] of the
    evaluator.  The loop stops at the first field that raises. *)
Theorem field_value_source cls k s :
  set_fld_attr_on_self cls k s =
    match lookup_attr cls (fld_attrs s) k with
    | None => Raise (ScreeningEligibilityAttributeError (class_name cls) k)
    | Some _ =>
        match model_obj s, cleaned_data s with
        | Some m, Some (entry :: d) =>
            Ok (tt, stored k (match dict_get k (entry :: d) with
                              | Some v => v
                              | None => PNone
                              end) s)
        | Some m, _ =>
            match dict_get k (model_fields m) with
            | Some v => Ok (tt, stored k v s)
            | None => Raise (ScreeningEligibilityModelAttributeError (model_class m) k)
            end
        | None, Some d =>
            match dict_get k d with
            | Some v => Ok (tt, stored k v s)
            | None => Raise (ScreeningEligibilityCleanedDataKeyError k)
            end
        | None, None => Raise TypeError
        end
    end
  /\ (forall v, getattr cls k (stored k v s) = Ok (v, stored k v s))
  /\ (forall keys,
        for_each (k :: keys) (set_fld_attr_on_self cls) s =
        match set_fld_attr_on_self cls k s with
        | Ok (_, s') => for_each keys (set_fld_attr_on_self cls) s'
        | Raise e => Raise e
        end)
  /\ set_fld_attrs_on_self cls =
     for_each (dict_keys (get_required_fields cls)) (set_fld_attr_on_self cls).
Proof.
  split; [|split; [|split]].
  - rewrite set_fld_attr_on_self_eq.
    destruct (lookup_attr cls (fld_attrs s) k); [|reflexivity].
    unfold field_value, model_getattr, stored.
    destruct (model_obj s) as [m|].
    + destruct (cleaned_data s) as [[|entry d]|].
      * destruct (dict_get k (model_fields m)); reflexivity.
      * destruct (dict_get k (entry :: d)); reflexivity.
      * destruct (dict_get k (model_fields m)); reflexivity.
    + destruct (cleaned_data s) as [d|]; [|reflexivity].
      destruct (dict_get k d); reflexivity.
  - intros v. rewrite getattr_eq. unfold stored. cbn [fld_attrs with_fld_attrs].
    now rewrite lookup_attr_set_same.
  - intros keys. cbn [for_each]. unfold bind.
    destruct (set_fld_attr_on_self cls k s) as [[[] s']|e]; reflexivity.
  - reflexivity.
Qed.

(** ** A field declared with [ignore_if_missing] *)

(** C8, at the failing input.  [consent_ability], declared with
    [FC(YES, ignore_if_missing=True)], is left empty: it is not in the
    missing data, but the rule loop still tests it, and the subject comes out
    ineligible with a reason, where the docstring of [FC] has the assessment
    skipped for a field without a value. *)
Theorem ignored_missing_field_is_tested :
  missing_data optional_class
    (with_fld_attrs [("consent_ability", PNone)]
       (initial_self optional_class (with_cleaned_data [("consent_ability", PNone)])))
  = Ok ([], with_fld_attrs [("consent_ability", PNone)]
              (initial_self optional_class
                 (with_cleaned_data [("consent_ability", PNone)])))
  /\ __init__ optional_class (with_cleaned_data [("consent_ability", PNone)])
     = Ok (mkSelf [] None (Some [("consent_ability", PNone)]) NO default_labels None
                  (Some [("consent_ability", "Consent Ability")])
                  [("consent_ability", PNone)]).
Proof.
  split.
  - reflexivity.
  - vm_compute. reflexivity.
Qed.

(** ** Writing onto the record *)

Lemma join_nonempty sep x l : x <> "" -> join sep (x :: l) <> "".
Proof.
  intros Hx. unfold join. destruct l as [|y l]; cbn [concat]; [exact Hx|].
  destruct x; [contradiction|discriminate].
Qed.

(** C9 as stated does not hold for a reason that is the empty string: the
    hook of [empty_reason_class] leaves the reasons [{bmi: ""}], which is
    not empty, their join is the empty string, and [None] is written to the
    record, not the join. *)
Lemma empty_join_written_as_none :
  __init__ empty_reason_class (with_record record_aged_70)
  = Ok (mkSelf [] None None NO default_labels
          (Some (mkModel "SubjectScreening"
                   [("age_in_years", PInt 70); ("eligible", PStr NO);
                    ("reasons_ineligible", PNone); ("consented", PBool false)]
                   0))
          (Some [("bmi", "")]) []).
Proof. vm_compute. reflexivity. Qed.

(** Lines 164-186 keep the record the constructor was given. *)
Lemma assess_required_fields_model_obj cls a s1 :
  assess_required_fields cls (initial_self cls a) = Ok (tt, s1) ->
  model_obj s1 = arg_model_obj a.
Proof.
  intros H.
  destruct (set_fld_attrs_on_self cls (initial_self cls a)) as [[[] s0]|e] eqn:Hset.
  - rewrite (assess_required_fields_eq cls _ s0 [] Hset eq_refl eq_refl) in H.
    injection H as <-. unfold assessed. cbn [model_obj].
    now destruct (resolved_state _ _ _ Hset) as (_ & _ & _ & Hmo & _).
  - unfold assess_required_fields in H. unfold bind at 1 in H.
    rewrite Hset in H. discriminate.
Qed.

Lemma written_frame s d m :
  model_class (written s d m) = model_class m
  /\ saves (written s d m) = saves m
  /\ dict_get (eligible_fld_name (conf s)) (model_fields (written s d m))
     = Some (PStr (eligible s))
  /\ (reasons_ineligible_fld_name (conf s) <> eligible_fld_name (conf s) ->
      dict_get (reasons_ineligible_fld_name (conf s)) (model_fields (written s d m))
      = Some (joined_reasons d))
  /\ (forall f,
        f <> eligible_fld_name (conf s) ->
        f <> reasons_ineligible_fld_name (conf s) ->
        dict_get f (model_fields (written s d m)) = dict_get f (model_fields m)).
Proof.
  unfold written, model_setattr. cbn [model_class saves model_fields].
  repeat split.
  - apply dict_get_set_same.
  - intros Hne. rewrite dict_get_set_other by congruence. apply dict_get_set_same.
  - intros f H1 H2. rewrite !dict_get_set_other by congruence. reflexivity.
Qed.

(** C9, amended.  Lines 164-186 keep the record the constructor was
    given.  After an assessment that passed the checks, the constructor
    returns the evaluator as it is when it holds no record; when it holds
    one, the record gets the joined reasons in its reasons field, then the
    verdict in its eligible field, and the hook [set_fld_attrs_on_model] is
    called on the evaluator holding it; the hook of the base class leaves
    the evaluator, and so the record, as it is.
    What is written for the reasons is their join with a pipe, or [None] when
    that join is the empty string, as it is for empty reasons; a first
    reason that is not empty makes it the join.  Writing keeps the class of
    the record, the count of its [save()] calls and every other field. *)
Theorem record_gets_verdict_and_reasons cls a :
  (forall s0,
      assess_required_fields cls (initial_self cls a) = Ok (tt, s0) ->
      model_obj s0 = arg_model_obj a)
  /\ (forall s1 d,
        _assess_eligibility cls (initial_self cls a) = Ok (tt, s1) ->
        check_result s1 = Ok (tt, s1) ->
        reasons_ineligible s1 = Some d ->
        __init__ cls a =
        match model_obj s1 with
        | None => Ok s1
        | Some m =>
            match set_fld_attrs_on_model cls
                    (with_model_obj (Some (written s1 d m)) s1) with
            | Ok (_, s) => Ok s
            | Raise e => Raise e
            end
        end)
  /\ (forall s, set_fld_attrs_on_model_default s = Ok (tt, s))
  /\ (forall d,
        joined_reasons d =
        if (join "|" (dict_values d) =? "")%string then PNone
        else PStr (join "|" (dict_values d)))
  /\ joined_reasons [] = PNone
  /\ (forall k x d,
        x <> "" ->
        joined_reasons ((k, x) :: d) = PStr (join "|" (x :: dict_values d)))
  /\ (forall s d m,
        model_class (written s d m) = model_class m
        /\ saves (written s d m) = saves m
        /\ dict_get (eligible_fld_name (conf s)) (model_fields (written s d m))
           = Some (PStr (eligible s))
        /\ (reasons_ineligible_fld_name (conf s) <> eligible_fld_name (conf s) ->
            dict_get (reasons_ineligible_fld_name (conf s))
                     (model_fields (written s d m))
            = Some (joined_reasons d))
        /\ (forall f,
              f <> eligible_fld_name (conf s) ->
              f <> reasons_ineligible_fld_name (conf s) ->
              dict_get f (model_fields (written s d m)) = dict_get f (model_fields m))).
Proof.
  split; [apply assess_required_fields_model_obj|].
  split.
  { intros s1 d H1 Hc Hd. rewrite init_eq, H1, Hc.
    destruct (model_obj s1) as [m|] eqn:Hm; [|reflexivity].
    rewrite _set_fld_attrs_on_model_eq, Hd, Hm. cbv zeta. fold (written s1 d m).
    now destruct (set_fld_attrs_on_model cls _) as [[[] s]|e]. }
  split; [reflexivity|]. split; [reflexivity|]. split; [reflexivity|].
  split; [|apply written_frame].
  intros k x d Hx. unfold joined_reasons. cbn [dict_values map snd].
  destruct (String.eqb_spec (join "|" (x :: map snd d)) "") as [He|He]; [|reflexivity].
  exfalso. revert He. now apply join_nonempty.
Qed.

(** The record of a seventy-year-old, handed to the evaluator of the age
    scenario: it comes back with the verdict and the reason, its other
    fields and its count of [save()] calls as they were. *)
Lemma record_gets_verdict_and_reasons_witness :
  __init__ age_class (with_record record_aged_70)
  = Ok (mkSelf [] None None NO default_labels
          (Some (mkModel "SubjectScreening"
                   [("age_in_years", PInt 70); ("eligible", PStr NO);
                    ("reasons_ineligible", PStr "Age In Years");
                    ("consented", PBool false)]
                   0))
          (Some [("age_in_years", "Age In Years")])
          [("age_in_years", PInt 70)]).
Proof.
  exact (proj1 (proj2 (record_gets_verdict_and_reasons age_class
                         (with_record record_aged_70)))
               (mkSelf [] None None NO default_labels (Some record_aged_70)
                       (Some [("age_in_years", "Age In Years")])
                       [("age_in_years", PInt 70)])
               [("age_in_years", "Age In Years")]
               eq_refl eq_refl eq_refl).
Defined.

(* ===================================================================== *)
(** * Further properties of the evaluator *)
(* ===================================================================== *)

(** ** The display name of a field *)

Lemma title_from_cons prev c s :
  title_from prev (String c s) =
  String (if is_upper c || is_lower c
          then (if prev then to_lower c else to_upper c) else c)
         (title_from (is_upper c || is_lower c) s).
Proof. cbn [title_from]. now destruct (is_upper c || is_lower c). Qed.

(** Turning an underscore into a space keeps a character cased or
    uncased. *)
Lemma replace_char_cased (c : ascii) :
  (is_upper (if Ascii.eqb c "_" then " "%char else c)
   || is_lower (if Ascii.eqb c "_" then " "%char else c))
  = (is_upper c || is_lower c).
Proof. destruct c as [[] [] [] [] [] [] [] []]; reflexivity. Qed.

(** Title-casing a character and replacing an underscore commute. *)
Lemma title_char_replace (c : ascii) (prev : bool) :
  (if Ascii.eqb (if is_upper c || is_lower c
                 then (if prev then to_lower c else to_upper c) else c) "_"
   then " "%char
   else (if is_upper c || is_lower c
         then (if prev then to_lower c else to_upper c) else c))
  = (if is_upper (if Ascii.eqb c "_" then " "%char else c)
        || is_lower (if Ascii.eqb c "_" then " "%char else c)
     then (if prev
           then to_lower (if Ascii.eqb c "_" then " "%char else c)
           else to_upper (if Ascii.eqb c "_" then " "%char else c))
     else (if Ascii.eqb c "_" then " "%char else c)).
Proof. destruct c as [[] [] [] [] [] [] [] []], prev; reflexivity. Qed.

Lemma title_from_replace s : forall prev,
  title_from prev (replace "_" " " s) = replace "_" " " (title_from prev s).
Proof.
  induction s as [|c s IH]; intros prev; [reflexivity|].
  cbn [replace]. rewrite !title_from_cons. cbn [replace].
  f_equal; [symmetry; apply title_char_replace|].
  rewrite replace_char_cased. apply IH.
Qed.

(** X1. The two messages name a field alike: [missing_data] replaces the
    underscores and then title-cases, the rule loop title-cases and then
    replaces them, and both give the same text. *)
Theorem field_display_name_agrees (k : string) :
  not_answered k = "`" ++ default_message k ++ "` not answered".
Proof.
  unfold not_answered, default_message, title. now rewrite title_from_replace.
Qed.

(** ** The cache of [missing_data] *)

Lemma missing_responses_same_attrs cls entries : forall acc s r s',
  missing_responses cls acc entries s = Ok (r, s) ->
  fld_attrs s' = fld_attrs s ->
  missing_responses cls acc entries s' = Ok (r, s').
Proof.
  induction entries as [|[k fc] entries IH]; intros acc s r s' H Ha.
  - cbn in *. unfold ret in *. congruence.
  - cbn [missing_responses] in *. unfold bind in *.
    destruct (missing_response cls acc (k, fc) s) as [[acc1 s1]|e] eqn:Hs; [|discriminate].
    pose proof (missing_response_state _ _ _ _ _ _ Hs) as ->.
    assert (Hs' : missing_response cls acc (k, fc) s' = Ok (acc1, s')).
    { revert Hs. unfold missing_response.
      destruct (negb (ignore_if_missing fc)); [|unfold ret; congruence].
      unfold bind. rewrite !getattr_eq, Ha.
      destruct (lookup_attr cls (fld_attrs s) k) as [v|]; [|discriminate].
      destruct (truthy v); [|unfold ret; congruence].
      destruct (_ && _); unfold ret; congruence. }
    rewrite Hs'. eauto.
Qed.

(** X2. Reading [missing_data] a second time gives the same dictionary
    and leaves the evaluator as the first reading left it, on every
    evaluator: when the first reading raises so does the pair, a dictionary
    with an entry is served from the cache, and an empty one, which is never
    cached, is computed again from the same attributes. *)
Theorem missing_data_read_twice cls s :
  (missing_data cls ;; missing_data cls) s = missing_data cls s.
Proof.
  unfold bind at 1.
  destruct (missing_data cls s) as [[md s1]|e] eqn:H1; [|reflexivity].
  pose proof (missing_data_frame _ _ _ _ H1) as Hs1.
  revert H1. unfold missing_data, bind, get, ret, modify.
  destruct (dict_truthy (_missing_data s)) eqn:Hc; cbn [negb].
  - intros [= <- <-]. now rewrite Hc.
  - destruct (missing_responses cls [] (get_required_fields cls) s) as [[rs s0]|e] eqn:Hr;
      [|discriminate].
    pose proof (missing_responses_state _ _ _ _ _ _ Hr) as ->.
    cbn [_missing_data with_missing_data]. intros [= Hmd Hs].
    rewrite <- Hs. cbn [_missing_data with_missing_data]. rewrite Hmd.
    destruct (dict_truthy md) eqn:Ht; cbn [negb].
    + reflexivity.
    + rewrite (missing_responses_same_attrs cls _ _ s rs (with_missing_data md s) Hr)
        by reflexivity.
      cbn [_missing_data with_missing_data]. rewrite Hmd. reflexivity.
Qed.

(** ** Accepted values that accept nothing *)

(** A range is truthy exactly when it has a member. *)
Lemma truthy_range_iff start stop step :
  truthy_accepted (Some (ARange start stop step)) = true <->
  exists z, range_contains start stop step z = true.
Proof.
  cbn [truthy_accepted]. split.
  - intros H. exists start. apply range_contains_iff. exists 0.
    apply orb_true_iff in H as [H|H]; apply andb_true_iff in H as [H1 H2];
      apply Z.ltb_lt in H1; apply Z.ltb_lt in H2; repeat split; lia.
  - intros (z & Hz). apply range_contains_iff in Hz as (j & Hj & -> & [[H1 H2]|[H1 H2]]).
    + apply orb_true_iff. left. apply andb_true_iff. split; apply Z.ltb_lt; nia.
    + apply orb_true_iff. right. apply andb_true_iff. split; apply Z.ltb_lt; nia.
Qed.

(** X3. A descriptor whose accepted value is [None], the empty string, an
    empty list or tuple, or a range without members is not tested: whatever
    the value of the field, the rule loop does no more at it than read
    [missing_data], so it records no reason and leaves the verdict. *)
Theorem empty_accepted_value_never_fails cls k fc s :
  value fc = None
  \/ value fc = Some (AStr "")
  \/ value fc = Some (AList [])
  \/ value fc = Some (ATuple [])
  \/ (exists start stop step,
        value fc = Some (ARange start stop step)
        /\ forall z, range_contains start stop step z = false) ->
  assess_field cls (k, fc) s =
  match missing_data cls s with
  | Ok (_, s') => Ok (tt, s')
  | Raise e => Raise e
  end.
Proof.
  intros H.
  assert (Hf : truthy_accepted (value fc) = false).
  { destruct H as [->|[->|[->|[->|(start & stop & step & -> & Hr)]]]]; try reflexivity.
    destruct (truthy_accepted (Some (ARange start stop step))) eqn:Ht; [|reflexivity].
    apply truthy_range_iff in Ht as (z & Hz). now rewrite Hr in Hz. }
  unfold assess_field, bind. rewrite Hf.
  destruct (missing_data cls s) as [[md s']|e]; [|reflexivity].
  now destruct (negb (dict_in k md)).
Qed.

(** [range(65, 18)] has no member: the age of the scenario, or any other,
    is not tested against it. *)
Lemma empty_accepted_value_never_fails_witness :
  assess_field age_class ("age_in_years", mkFC (Some (ARange 65 18 1)) None false None)
    (mkSelf [] None None YES default_labels None (Some []) [("age_in_years", PInt 70)])
  = match missing_data age_class
            (mkSelf [] None None YES default_labels None (Some [])
                    [("age_in_years", PInt 70)]) with
    | Ok (_, s') => Ok (tt, s')
    | Raise e => Raise e
    end.
Proof.
  apply (empty_accepted_value_never_fails age_class "age_in_years"
           (mkFC (Some (ARange 65 18 1)) None false None)).
  right. right. right. right. exists 65, 18, 1. split; [reflexivity|].
  intros z. unfold range_contains. cbn [Z.ltb Z.compare].
  destruct (Z.leb_spec 65 z), (Z.ltb_spec z 18); try reflexivity. lia.
Defined.

(** ** The verdict of the base class *)

Lemma reasons_after_nonempty cls vb a entries : forall r,
  r <> [] -> reasons_after cls vb a entries r <> [].
Proof.
  unfold reasons_after.
  induction entries as [|e entries IH]; intros r Hr; cbn [fold_left]; [exact Hr|].
  apply IH. destruct (field_fails cls a e); [apply dict_set_nonempty|exact Hr].
Qed.

Lemma reasons_after_nil_iff cls vb a entries : forall r,
  reasons_after cls vb a entries r = [] <->
  r = [] /\ existsb (field_fails cls a) entries = false.
Proof.
  induction entries as [|e entries IH]; intros r.
  - cbn. split; [auto|tauto].
  - unfold reasons_after in *. cbn [fold_left existsb].
    destruct (field_fails cls a e) eqn:Hf; cbn [orb].
    + split; [|intros [_ H]; discriminate].
      intros H. exfalso. revert H. apply (reasons_after_nonempty cls vb a entries).
      apply dict_set_nonempty.
    + apply IH.
Qed.

Lemma tokens_ok_spec c :
  tokens_ok c = true ->
  is_eligible_value c <> "" /\ str_in (is_eligible_value c) (eligible_values_list c) = true
  /\ eligible_value_default c <> ""
  /\ str_in (eligible_value_default c) (eligible_values_list c) = true
  /\ is_ineligible_value c <> ""
  /\ str_in (is_ineligible_value c) (eligible_values_list c) = true
  /\ eligible_value_default c <> is_eligible_value c
  /\ is_ineligible_value c <> is_eligible_value c.
Proof.
  unfold tokens_ok. rewrite !andb_true_iff, !negb_true_iff, !String.eqb_neq. tauto.
Qed.

(** What [check_result] does with a verdict that is a non-empty member of
    the list. *)
Lemma check_result_valid s r :
  str_in (eligible s) (eligible_values_list (conf s)) = true ->
  eligible s <> "" ->
  reasons_ineligible s = Some r ->
  (eligible s = is_eligible_value (conf s) <-> r = []) ->
  check_result s = Ok (tt, s).
Proof.
  intros Hin Hne Hr Hiff. unfold check_result, is_eligible, reasons_truthy.
  rewrite Hin, Hr. cbn [negb orb].
  destruct (String.eqb_spec (eligible s) ""); [contradiction|]. cbn [orb].
  destruct (String.eqb_spec (eligible s) (is_eligible_value (conf s))) as [He|He].
  - rewrite (proj1 Hiff He). reflexivity.
  - destruct r as [|x r]; [|reflexivity]. exfalso. apply He. now apply Hiff.
Qed.

(** X4. With the hooks of the base class and well-formed tokens, the
    constructor returns whenever the required fields can be set on the
    evaluator: the checks of lines 101-125 never fire.  The verdict is the
    ineligible token when a field that is not missing fails its test, else
    the default token when a field is missing, else the eligible token. *)
Theorem base_class_passes_checks cls a s1 :
  assess_eligibility cls = assess_eligibility_default ->
  set_fld_attrs_on_model cls = set_fld_attrs_on_model_default ->
  tokens_ok (conf (initial_self cls a)) = true ->
  set_fld_attrs_on_self cls (initial_self cls a) = Ok (tt, s1) ->
  exists s,
    __init__ cls a = Ok s
    /\ eligible s =
       (if existsb (field_fails cls (fld_attrs s1)) (get_required_fields cls)
        then is_ineligible_value (conf s)
        else if dict_truthy (missing_data_of cls (fld_attrs s1))
             then eligible_value_default (conf s)
             else is_eligible_value (conf s))
    /\ conf s = conf (initial_self cls a).
Proof.
  intros Hhook Hmhook Htok Hset.
  destruct (resolved_state _ _ _ Hset) as (_ & _ & Hconf & Hmo & _ & _ & _).
  pose proof (assess_required_fields_eq cls _ s1 [] Hset eq_refl eq_refl) as Hall.
  set (s2 := assessed cls s1 []) in *.
  rewrite <- Hconf in Htok.
  destruct (tokens_ok_spec _ Htok) as (He1 & He2 & Hd1 & Hd2 & Hi1 & Hi2 & Hde & Hie).
  assert (Hc2 : conf s2 = conf s1) by reflexivity.
  assert (Hr2 : reasons_ineligible s2 =
                Some (reasons_after cls (verbose s1) (fld_attrs s1)
                        (get_required_fields cls)
                        (dict_update [] (missing_data_of cls (fld_attrs s1)))))
    by reflexivity.
  assert (Hv2 : eligible s2 =
                (if existsb (field_fails cls (fld_attrs s1)) (get_required_fields cls)
                 then is_ineligible_value (conf s1)
                 else if dict_truthy (missing_data_of cls (fld_attrs s1))
                      then eligible_value_default (conf s1)
                      else is_eligible_value (conf s1)))
    by reflexivity.
  assert (Hiff : eligible s2 = is_eligible_value (conf s2) <->
                 reasons_after cls (verbose s1) (fld_attrs s1) (get_required_fields cls)
                   (dict_update [] (missing_data_of cls (fld_attrs s1))) = []).
  { rewrite reasons_after_nil_iff, dict_update_empty_iff, Hv2, Hc2.
    destruct (existsb _ _).
    - split; [intros H; contradiction|intros [_ H]; discriminate].
    - destruct (missing_data_of cls (fld_attrs s1)) as [|x md]; cbn [dict_truthy].
      + tauto.
      + split; [intros H; contradiction|intros [H _]; discriminate]. }
  assert (Hassess : _assess_eligibility cls (initial_self cls a) = Ok (tt, s2)).
  { rewrite _assess_eligibility_eq, Hall, Hhook.
    now destruct (is_eligible s2). }
  assert (Hcheck : check_result s2 = Ok (tt, s2)).
  { apply check_result_valid with (r := reasons_after cls (verbose s1) (fld_attrs s1)
                                          (get_required_fields cls)
                                          (dict_update [] (missing_data_of cls (fld_attrs s1))));
      [| |exact Hr2|exact Hiff].
    - rewrite Hv2, Hc2. destruct (existsb _ _); [assumption|].
      now destruct (dict_truthy _).
    - rewrite Hv2. destruct (existsb _ _); [assumption|].
      now destruct (dict_truthy _). }
  rewrite init_eq, Hassess, Hcheck.
  destruct (model_obj s2) as [m|] eqn:Hm.
  - rewrite _set_fld_attrs_on_model_eq, Hr2, Hm. cbv zeta. rewrite Hmhook.
    unfold set_fld_attrs_on_model_default.
    eexists. split; [reflexivity|]. cbn [eligible conf with_model_obj].
    rewrite Hc2, Hconf in *. split; [exact Hv2|reflexivity].
  - exists s2. split; [reflexivity|]. rewrite Hc2, Hconf in *. split; [exact Hv2|reflexivity].
Qed.

(** An empty age with the tokens of the base class: the constructor
    returns, and the verdict is the default token. *)
Lemma base_class_passes_checks_witness :
  exists s,
    __init__ age_class (with_cleaned_data [("age_in_years", PNone)]) = Ok s
    /\ eligible s = TBD
    /\ conf s = default_labels.
Proof.
  destruct (base_class_passes_checks age_class
              (with_cleaned_data [("age_in_years", PNone)])
              (with_fld_attrs [("age_in_years", PNone)]
                 (initial_self age_class (with_cleaned_data [("age_in_years", PNone)])))
              eq_refl eq_refl eq_refl eq_refl) as (s & Hinit & Hverdict & Hconf).
  exists s. split; [exact Hinit|]. split; [|exact Hconf].
  rewrite Hverdict, Hconf. reflexivity.
Defined.

(** ** The reasons, in the order of the table *)

Lemma dict_get_app {V} k (d d' : dict V) :
  dict_get k (d ++ d')%list =
  match dict_get k d with Some v => Some v | None => dict_get k d' end.
Proof.
  induction d as [|[k0 v0] d IH]; cbn [app dict_get]; [reflexivity|].
  destruct (k0 =? k)%string; [reflexivity|exact IH].
Qed.

(** A loop that sets fresh keys appends its entries in order. *)
Lemma fold_dict_set_fresh {A V} (f : dict V -> A -> dict V) (p : A -> bool)
      (key : A -> string) (val : A -> V) :
  (forall acc x, f acc x = if p x then dict_set (key x) (val x) acc else acc) ->
  forall l d,
    NoDup (map key l) ->
    (forall x, In x l -> p x = true -> dict_get (key x) d = None) ->
    fold_left f l d = (d ++ map (fun x => (key x, val x)) (filter p l))%list.
Proof.
  intros Hf. induction l as [|x l IH]; intros d Hnd Hfresh.
  - cbn. now rewrite app_nil_r.
  - cbn [fold_left filter map]. inversion Hnd as [|? ? Hx Hl]; subst.
    rewrite Hf. destruct (p x) eqn:Hp.
    + rewrite dict_set_fresh by (apply Hfresh; [now left|assumption]).
      rewrite IH; [now rewrite <- app_assoc|assumption|].
      intros y Hy Hpy. rewrite dict_get_app, (Hfresh y (or_intror Hy) Hpy).
      cbn [dict_get]. destruct (String.eqb_spec (key x) (key y)) as [Heq|]; [|reflexivity].
      exfalso. apply Hx. rewrite Heq. now apply in_map.
    + apply IH; [assumption|]. intros y Hy. apply Hfresh. now right.
Qed.

Lemma dict_update_fresh {V} (l d : dict V) :
  NoDup (dict_keys l) ->
  (forall kv, In kv l -> dict_get (fst kv) d = None) ->
  dict_update d l = (d ++ l)%list.
Proof.
  intros Hnd Hfresh. unfold dict_update.
  rewrite (fold_dict_set_fresh _ (fun _ => true) fst snd); [| |exact Hnd|auto].
  - rewrite filter_all by (apply forallb_forall; auto).
    f_equal. induction l as [|[k v] l IH]; [reflexivity|]. cbn.
    inversion Hnd; subst. rewrite IH; auto. intros. apply Hfresh. now right.
  - reflexivity.
Qed.

Lemma NoDup_map_filter {A B} (g : A -> B) (p : A -> bool) (l : list A) :
  NoDup (map g l) -> NoDup (map g (filter p l)).
Proof.
  induction l as [|x l IH]; cbn; [auto|]. intros H. inversion H as [|? ? Hx Hl]; subst.
  destruct (p x); [|auto]. cbn. constructor; [|auto].
  intros Hin. apply Hx. apply in_map_iff in Hin as (y & Hy & Hin).
  apply filter_In in Hin as [Hin _]. rewrite <- Hy. now apply in_map.
Qed.

(** In a table without repeated keys, a key is missing exactly when its
    one entry is. *)
Lemma missing_in_nodup cls a table k fc :
  NoDup (dict_keys table) -> In (k, fc) table ->
  missing_in cls a table k = is_missing fc (attr_value cls a k).
Proof.
  unfold missing_in, dict_keys.
  induction table as [|[k0 fc0] table IH]; intros Hnd Hin; [destruct Hin|].
  inversion Hnd as [|? ? Hx Hl]; subst. cbn [existsb fst snd] in *.
  destruct Hin as [[= -> ->]|Hin].
  - rewrite String.eqb_refl. cbn [andb].
    destruct (is_missing fc (attr_value cls a k)); [reflexivity|]. cbn [orb].
    apply existsb_none. intros [k1 fc1] Hin1. cbn [fst snd].
    destruct (String.eqb_spec k1 k) as [->|]; [|reflexivity].
    exfalso. apply Hx. change k with (fst (k, fc1)). now apply in_map.
  - destruct (String.eqb_spec k0 k) as [->|].
    + exfalso. apply Hx. change k with (fst (k, fc)). now apply in_map.
    + cbn [andb orb]. now apply IH.
Qed.

Lemma missing_data_of_nodup cls a :
  NoDup (dict_keys (get_required_fields cls)) ->
  missing_data_of cls a =
  map (fun e => (fst e, not_answered (fst e)))
      (filter (entry_missing cls a) (get_required_fields cls)).
Proof.
  intros Hnd. unfold missing_data_of, missing_messages.
  rewrite filter_all by (now apply responses_falsy).
  rewrite (fold_dict_set_fresh (response_of cls a) (entry_missing cls a) fst
             (fun e => if truthy (attr_value cls a (fst e)) then PNone
                       else attr_value cls a (fst e)));
    [|reflexivity|exact Hnd|reflexivity].
  cbn [app]. rewrite map_map. cbn [fst].
  rewrite dict_update_fresh; [reflexivity| |reflexivity].
  unfold dict_keys. rewrite map_map. cbn [fst].
  now apply NoDup_map_filter.
Qed.

(** X5. When no key is declared twice, the reasons after the rule loop
    are: the declared fields that are missing, in the order of the table,
    each with its "not answered" message, followed by the declared fields
    that are not missing and fail their test, in the order of the table, each
    with its failure message. *)
Theorem reasons_follow_the_table cls a s1 :
  NoDup (dict_keys (get_required_fields cls)) ->
  set_fld_attrs_on_self cls (initial_self cls a) = Ok (tt, s1) ->
  exists s2,
    assess_required_fields cls (initial_self cls a) = Ok (tt, s2)
    /\ reasons_ineligible s2 =
       Some (map (fun e => (fst e, not_answered (fst e)))
                 (filter (entry_missing cls (fld_attrs s1)) (get_required_fields cls))
             ++ map (fun e => (fst e,
                               message_of cls (verbose s1) (fld_attrs s1) (fst e) (snd e)))
                    (filter (entry_failed cls (fld_attrs s1))
                            (get_required_fields cls)))%list.
Proof.
  intros Hnd Hset.
  exists (assessed cls s1 []). split.
  - now apply assess_required_fields_eq.
  - unfold assessed. cbn [reasons_ineligible]. f_equal.
    set (a1 := fld_attrs s1).
    assert (Hmd : dict_update [] (missing_data_of cls a1) = missing_data_of cls a1).
    { rewrite dict_update_fresh; [reflexivity| |reflexivity].
      rewrite missing_data_of_nodup by assumption.
      unfold dict_keys. rewrite map_map. cbn [fst]. now apply NoDup_map_filter. }
    rewrite Hmd. unfold reasons_after.
    rewrite (fold_dict_set_fresh _ (field_fails cls a1) fst
               (fun e => message_of cls (verbose s1) a1 (fst e) (snd e)));
      [|reflexivity|exact Hnd|].
    + rewrite missing_data_of_nodup by assumption. f_equal. f_equal.
      apply filter_ext_in. intros [k fc] Hin.
      unfold field_fails, entry_failed, entry_missing. cbn [fst snd].
      now rewrite (missing_in_nodup cls a1 _ k fc Hnd Hin).
    + intros e _ Hf. rewrite missing_data_of_get.
      unfold field_fails in Hf.
      destruct (missing_in cls a1 (get_required_fields cls) (fst e)); [discriminate|reflexivity].
Qed.

(** Three declared fields, the second one missing and the other two
    failing: the missing one comes first. *)
Lemma reasons_follow_the_table_witness :
  exists s2,
    assess_required_fields screening_class
      (initial_self screening_class (with_cleaned_data poor_answers)) = Ok (tt, s2)
    /\ reasons_ineligible s2 =
       Some [("age_in_years", "`Age In Years` not answered");
             ("gender", "Gender");
             ("consent", "Consent not given")].
Proof.
  assert (Hnd : NoDup (dict_keys (get_required_fields screening_class))).
  { cbn. repeat constructor; cbn; intuition discriminate. }
  destruct (reasons_follow_the_table screening_class (with_cleaned_data poor_answers)
              (with_fld_attrs poor_answers
                 (initial_self screening_class (with_cleaned_data poor_answers)))
              Hnd eq_refl) as (s2 & Hrun & Hreasons).
  exists s2. split; [exact Hrun|]. rewrite Hreasons. reflexivity.
Defined.

(** ** The verbose flag *)

Lemma set_fld_attr_on_self_verbose cls v k s :
  set_fld_attr_on_self cls k (with_verbose v s) =
  map_state (with_verbose v) (set_fld_attr_on_self cls k s).
Proof.
  rewrite !set_fld_attr_on_self_eq. cbn [fld_attrs with_verbose].
  destruct (lookup_attr cls (fld_attrs s) k); [|reflexivity].
  unfold field_value. cbn [model_obj cleaned_data with_verbose].
  destruct (model_obj s) as [m|].
  - destruct (cleaned_data s) as [[|entry d]|].
    + destruct (model_getattr m k) as [w|[]]; reflexivity.
    + destruct (dict_get k (entry :: d)); reflexivity.
    + destruct (model_getattr m k) as [w|[]]; reflexivity.
  - destruct (cleaned_data s) as [d|]; [|reflexivity].
    destruct (dict_get k d); reflexivity.
Qed.

Lemma set_fld_attrs_loop_verbose cls v keys : forall s,
  for_each keys (set_fld_attr_on_self cls) (with_verbose v s) =
  map_state (with_verbose v) (for_each keys (set_fld_attr_on_self cls) s).
Proof.
  induction keys as [|k keys IH]; intros s; [reflexivity|].
  cbn [for_each]. unfold bind. rewrite set_fld_attr_on_self_verbose.
  destruct (set_fld_attr_on_self cls k s) as [[[] s']|e]; cbn [map_state]; [apply IH|reflexivity].
Qed.

Lemma reasons_after_keys cls vb vb' a entries : forall r r',
  dict_keys r = dict_keys r' ->
  dict_keys (reasons_after cls vb a entries r)
  = dict_keys (reasons_after cls vb' a entries r').
Proof.
  unfold reasons_after.
  induction entries as [|e entries IH]; intros r r' H; cbn [fold_left]; [exact H|].
  apply IH. destruct (field_fails cls a e); [|exact H].
  clear -H. revert r' H. unfold dict_keys.
  induction r as [|[k0 v0] r IHr]; intros [|[k1 v1] r'] H; cbn in *; try discriminate.
  - reflexivity.
  - injection H as -> H. destruct (k1 =? fst e)%string; cbn; [now rewrite H|].
    f_equal. now apply IHr.
Qed.

(** When a resolution raises, so does the constructor. *)
Lemma init_resolution_raises cls a e :
  set_fld_attrs_on_self cls (initial_self cls a) = Raise e ->
  __init__ cls a = Raise e.
Proof.
  intros H. rewrite init_eq, _assess_eligibility_eq.
  unfold assess_required_fields. unfold bind at 1. now rewrite H.
Qed.

(** The constructor of a class with the hooks of the base class, once the
    required fields are set. *)
Lemma init_base_eq cls a s1 :
  assess_eligibility cls = assess_eligibility_default ->
  set_fld_attrs_on_model cls = set_fld_attrs_on_model_default ->
  set_fld_attrs_on_self cls (initial_self cls a) = Ok (tt, s1) ->
  __init__ cls a =
  match check_result (assessed cls s1 []) with
  | Ok _ =>
      Ok (match model_obj s1 with
          | Some m =>
              with_model_obj
                (Some (written (assessed cls s1 [])
                         (reasons_after cls (verbose s1) (fld_attrs s1)
                            (get_required_fields cls)
                            (dict_update [] (missing_data_of cls (fld_attrs s1))))
                         m))
                (assessed cls s1 [])
          | None => assessed cls s1 []
          end)
  | Raise e => Raise e
  end.
Proof.
  intros Hhook Hmhook Hset.
  rewrite init_eq, _assess_eligibility_eq.
  rewrite (assess_required_fields_eq cls _ s1 [] Hset eq_refl eq_refl), Hhook.
  replace (if is_eligible (assessed cls s1 [])
           then assess_eligibility_default (assessed cls s1 [])
           else Ok (tt, assessed cls s1 []))
    with (@Ok (unit * self) (tt, assessed cls s1 []))
    by (now destruct (is_eligible (assessed cls s1 []))).
  destruct (check_result (assessed cls s1 [])) as [[[] s']|e]; [|reflexivity].
  rewrite _set_fld_attrs_on_model_eq.
  change (model_obj (assessed cls s1 [])) with (model_obj s1).
  destruct (model_obj s1) as [m|]; [|reflexivity].
  cbn [reasons_ineligible assessed]. cbv zeta. rewrite Hmhook. reflexivity.
Qed.

Lemma check_result_cong s s' :
  eligible s = eligible s' ->
  conf s = conf s' ->
  option_map dict_keys (reasons_ineligible s)
  = option_map dict_keys (reasons_ineligible s') ->
  map_state (fun _ => s') (check_result s) = check_result s'.
Proof.
  intros He Hc Hr. unfold check_result, is_eligible, reasons_truthy.
  rewrite <- He, <- Hc.
  assert (Hshape : match reasons_ineligible s, reasons_ineligible s' with
                   | None, None | Some [], Some [] | Some (_ :: _), Some (_ :: _) => True
                   | _, _ => False
                   end).
  { destruct (reasons_ineligible s) as [[|x r]|], (reasons_ineligible s') as [[|x' r']|];
      cbn in Hr; try discriminate; exact I. }
  destruct (negb (str_in (eligible s) (eligible_values_list (conf s)))); [reflexivity|].
  destruct ((eligible s =? "")%string); [reflexivity|]. cbn [orb].
  destruct ((eligible s =? is_eligible_value (conf s))%string);
    destruct (reasons_ineligible s) as [[|x r]|], (reasons_ineligible s') as [[|x' r']|];
    try contradiction; reflexivity.
Qed.

(** X6. With the hooks of the base class, [verbose] changes the wording of
    the reasons and nothing else: called with another [verbose], the
    constructor raises the same exception, or returns an evaluator with the
    same verdict and the same fields, in the same order, in its reasons. *)
Theorem verbose_changes_wording_only cls a v :
  assess_eligibility cls = assess_eligibility_default ->
  set_fld_attrs_on_model cls = set_fld_attrs_on_model_default ->
  match __init__ cls a, __init__ cls (args_with_verbose v a) with
  | Ok s, Ok s' =>
      eligible s = eligible s'
      /\ option_map dict_keys (reasons_ineligible s)
         = option_map dict_keys (reasons_ineligible s')
  | Raise e, Raise e' => e = e'
  | _, _ => False
  end.
Proof.
  intros Hhook Hmhook.
  assert (Hinit : initial_self cls (args_with_verbose v a)
                  = with_verbose v (initial_self cls a)) by reflexivity.
  pose proof (set_fld_attrs_loop_verbose cls v (dict_keys (get_required_fields cls))
                (initial_self cls a)) as Hloop.
  fold (set_fld_attrs_on_self cls) in Hloop. rewrite <- Hinit in Hloop.
  destruct (set_fld_attrs_on_self cls (initial_self cls a)) as [[[] s1]|e] eqn:Hset;
    cbn [map_state] in Hloop.
  - rewrite (init_base_eq cls a s1 Hhook Hmhook Hset).
    rewrite (init_base_eq cls _ _ Hhook Hmhook Hloop).
    assert (Hkeys : option_map dict_keys (reasons_ineligible (assessed cls s1 []))
                    = option_map dict_keys
                        (reasons_ineligible (assessed cls (with_verbose v s1) []))).
    { cbn. f_equal. now apply reasons_after_keys. }
    pose proof (check_result_cong (assessed cls s1 []) (assessed cls (with_verbose v s1) [])
                  eq_refl eq_refl Hkeys) as Hcheck.
    destruct (check_result (assessed cls s1 [])) as [[[] t]|e];
      destruct (check_result (assessed cls (with_verbose v s1) [])) as [[[] t']|e'];
      cbn [map_state] in Hcheck; try discriminate.
    + change (model_obj (with_verbose v s1)) with (model_obj s1).
      destruct (model_obj s1); cbn [eligible reasons_ineligible with_model_obj];
        (split; [reflexivity|exact Hkeys]).
    + congruence.
  - rewrite (init_resolution_raises _ _ _ Hset), (init_resolution_raises _ _ _ Hloop).
    reflexivity.
Qed.

(** The seventy-year-old, quietly and verbosely: the same verdict and the
    same field in the reasons. *)
Lemma verbose_changes_wording_only_witness :
  match __init__ age_class (with_cleaned_data [("age_in_years", PInt 70)]),
        __init__ age_class
          (args_with_verbose (Some true) (with_cleaned_data [("age_in_years", PInt 70)]))
  with
  | Ok s, Ok s' =>
      eligible s = eligible s'
      /\ option_map dict_keys (reasons_ineligible s)
         = option_map dict_keys (reasons_ineligible s')
  | Raise e, Raise e' => e = e'
  | _, _ => False
  end.
Proof.
  exact (verbose_changes_wording_only age_class
           (with_cleaned_data [("age_in_years", PInt 70)]) (Some true) eq_refl eq_refl).
Defined.

(** ** A mapping hides the record *)

Lemma set_fld_attr_on_self_record cls m' k s m entry d :
  model_obj s = Some m ->
  cleaned_data s = Some (entry :: d) ->
  set_fld_attr_on_self cls k (with_model_obj (Some m') s) =
  map_state (with_model_obj (Some m')) (set_fld_attr_on_self cls k s).
Proof.
  intros Hm Hd. rewrite !set_fld_attr_on_self_eq. cbn [fld_attrs with_model_obj].
  destruct (lookup_attr cls (fld_attrs s) k); [|reflexivity].
  unfold field_value. cbn [model_obj cleaned_data with_model_obj]. rewrite Hm, Hd.
  destruct (dict_get k (entry :: d)); reflexivity.
Qed.

Lemma set_fld_attrs_loop_record cls m' keys : forall s m entry d,
  model_obj s = Some m ->
  cleaned_data s = Some (entry :: d) ->
  for_each keys (set_fld_attr_on_self cls) (with_model_obj (Some m') s) =
  map_state (with_model_obj (Some m')) (for_each keys (set_fld_attr_on_self cls) s).
Proof.
  induction keys as [|k keys IH]; intros s m entry d Hm Hd; [reflexivity|].
  cbn [for_each]. unfold bind.
  rewrite (set_fld_attr_on_self_record cls m' k s m entry d Hm Hd).
  destruct (set_fld_attr_on_self cls k s) as [[[] s']|e] eqn:Hs; cbn [map_state];
    [|reflexivity].
  rewrite set_fld_attr_on_self_eq in Hs.
  destruct (lookup_attr cls (fld_attrs s) k); [|discriminate].
  destruct (field_value k s) as [[v s0]|e]; [|discriminate].
  injection Hs as <-. now apply (IH _ m entry d).
Qed.

(** X7. When [cleaned_data] is given and not empty, the record only
    receives the result: with the hooks of the base class, the constructor
    called on two different records raises the same exception, or returns
    evaluators with the same verdict and the same reasons. *)
Theorem mapping_hides_record cls a entry d m m' :
  assess_eligibility cls = assess_eligibility_default ->
  set_fld_attrs_on_model cls = set_fld_attrs_on_model_default ->
  arg_cleaned_data a = Some (entry :: d) ->
  match __init__ cls (args_with_record m a), __init__ cls (args_with_record m' a) with
  | Ok s, Ok s' =>
      eligible s = eligible s' /\ reasons_ineligible s = reasons_ineligible s'
  | Raise e, Raise e' => e = e'
  | _, _ => False
  end.
Proof.
  intros Hhook Hmhook Hd.
  assert (Hinit : initial_self cls (args_with_record m' a)
                  = with_model_obj (Some m') (initial_self cls (args_with_record m a)))
    by reflexivity.
  pose proof (set_fld_attrs_loop_record cls m' (dict_keys (get_required_fields cls))
                (initial_self cls (args_with_record m a)) m entry d eq_refl Hd) as Hloop.
  fold (set_fld_attrs_on_self cls) in Hloop. rewrite <- Hinit in Hloop.
  destruct (set_fld_attrs_on_self cls (initial_self cls (args_with_record m a)))
    as [[[] s1]|e] eqn:Hset; cbn [map_state] in Hloop.
  - rewrite (init_base_eq cls _ s1 Hhook Hmhook Hset).
    rewrite (init_base_eq cls _ _ Hhook Hmhook Hloop).
    pose proof (check_result_cong (assessed cls s1 [])
                  (assessed cls (with_model_obj (Some m') s1) [])
                  eq_refl eq_refl eq_refl) as Hcheck.
    destruct (check_result (assessed cls s1 [])) as [[[] t]|e];
      destruct (check_result (assessed cls (with_model_obj (Some m') s1) []))
        as [[[] t']|e'];
      cbn [map_state] in Hcheck; try discriminate.
    + cbn [model_obj with_model_obj].
      destruct (model_obj s1); cbn [eligible reasons_ineligible with_model_obj assessed];
        (split; reflexivity).
    + congruence.
  - rewrite (init_resolution_raises _ _ _ Hset), (init_resolution_raises _ _ _ Hloop).
    reflexivity.
Qed.

(** The answers of the form say 30; the record of the seventy-year-old and
    an empty record give the same, eligible, result. *)
Lemma mapping_hides_record_witness :
  match __init__ age_class
          (args_with_record record_aged_70 (with_cleaned_data [("age_in_years", PInt 30)])),
        __init__ age_class
          (args_with_record (mkModel "SubjectScreening" [] 0)
             (with_cleaned_data [("age_in_years", PInt 30)]))
  with
  | Ok s, Ok s' =>
      eligible s = eligible s' /\ reasons_ineligible s = reasons_ineligible s'
  | Raise e, Raise e' => e = e'
  | _, _ => False
  end.
Proof.
  exact (mapping_hides_record age_class (with_cleaned_data [("age_in_years", PInt 30)])
           ("age_in_years", PInt 30) [] record_aged_70 (mkModel "SubjectScreening" [] 0)
           eq_refl eq_refl eq_refl).
Defined.

(** ** What the record is told *)

Lemma dict_set_forall {V} (P : V -> Prop) k v (d : dict V) :
  P v -> Forall (fun kv => P (snd kv)) d ->
  Forall (fun kv => P (snd kv)) (dict_set k v d).
Proof.
  intros Hv. induction 1 as [|[k' v'] d Hkv Hd IH]; cbn [dict_set].
  - constructor; [exact Hv|constructor].
  - destruct (k' =? k)%string; constructor; auto.
Qed.

Lemma dict_update_forall {V} (P : V -> Prop) (l : dict V) : forall d,
  Forall (fun kv => P (snd kv)) l -> Forall (fun kv => P (snd kv)) d ->
  Forall (fun kv => P (snd kv)) (dict_update d l).
Proof.
  induction l as [|[k v] l IH]; intros d Hl Hd; [exact Hd|].
  rewrite dict_update_cons. inversion Hl; subst. apply IH; [assumption|].
  now apply dict_set_forall.
Qed.

Lemma append_nonempty s t : s <> "" -> (s ++ t)%string <> "".
Proof. destruct s; [contradiction|discriminate]. Qed.

Lemma default_message_nonempty k : k <> "" -> default_message k <> "".
Proof.
  unfold default_message, title. destruct k as [|c k]; [contradiction|].
  intros _. rewrite title_from_cons. discriminate.
Qed.

Lemma message_of_nonempty cls vb a k fc : k <> "" -> message_of cls vb a k fc <> "".
Proof.
  intros Hk. unfold message_of.
  assert (Hm : match msg fc with
               | Some m => if (m =? "")%string then default_message k else m
               | None => default_message k
               end <> "").
  { destruct (msg fc) as [m|]; [|now apply default_message_nonempty].
    destruct (String.eqb_spec m ""); [now apply default_message_nonempty|assumption]. }
  destruct (verbose_flag vb); [now apply append_nonempty|exact Hm].
Qed.

(** Every reason the base class records is a non-empty text, when no
    field has the empty name. *)
Lemma assessed_reasons_nonempty cls s1 :
  forallb (fun k => negb (k =? "")%string) (dict_keys (get_required_fields cls)) = true ->
  Forall (fun kv : string * string => snd kv <> "")
         (reasons_after cls (verbose s1) (fld_attrs s1) (get_required_fields cls)
            (dict_update [] (missing_data_of cls (fld_attrs s1)))).
Proof.
  intros Hkeys.
  assert (Hmd : Forall (fun kv : string * string => snd kv <> "")
                  (missing_data_of cls (fld_attrs s1))).
  { assert (Hk : Forall (fun kv => snd kv = not_answered (fst kv))
                   (missing_data_of cls (fld_attrs s1))).
    { unfold missing_data_of, missing_messages. apply dict_update_keyed. constructor. }
    eapply Forall_impl; [|exact Hk]. intros [k m] H. cbn in *. subst m. discriminate. }
  assert (Hstart : Forall (fun kv : string * string => snd kv <> "")
                     (dict_update [] (missing_data_of cls (fld_attrs s1)))).
  { apply (dict_update_forall (fun v => v <> "")); [exact Hmd|constructor]. }
  revert Hstart. generalize (dict_update [] (missing_data_of cls (fld_attrs s1))).
  unfold reasons_after, dict_keys in *. rewrite forallb_forall in Hkeys.
  induction (get_required_fields cls) as [|e entries IH]; intros r Hr; [exact Hr|].
  cbn [fold_left]. apply IH.
  - intros k Hin. apply Hkeys. now right.
  - destruct (field_fails cls (fld_attrs s1) e); [|exact Hr].
    apply (dict_set_forall (fun v => v <> "")); [|exact Hr].
    apply message_of_nonempty. apply String.eqb_neq, negb_true_iff, Hkeys. now left.
Qed.

Lemma joined_reasons_none d :
  Forall (fun kv : string * string => snd kv <> "") d ->
  (joined_reasons d = PNone <-> d = []).
Proof.
  intros Hd. split; [|now intros ->].
  destruct d as [|[k x] d]; [reflexivity|]. inversion Hd; subst. cbn [snd] in *.
  unfold joined_reasons. cbn [dict_values map snd].
  destruct (String.eqb_spec (join "|" (x :: map snd d)) "") as [He|]; [|discriminate].
  exfalso. revert He. now apply join_nonempty.
Qed.

(** X8. With the hooks of the base class, field names that are not empty
    and two different names for the record's fields, the record the
    constructor returns holds the verdict in its eligible field, and [None]
    in its reasons field exactly when the verdict is the eligible token. *)
Theorem record_reasons_none_iff_eligible cls a m s :
  assess_eligibility cls = assess_eligibility_default ->
  set_fld_attrs_on_model cls = set_fld_attrs_on_model_default ->
  forallb (fun k => negb (k =? "")%string) (dict_keys (get_required_fields cls)) = true ->
  reasons_ineligible_fld_name (class_labels cls) <> eligible_fld_name (class_labels cls) ->
  arg_model_obj a = Some m ->
  __init__ cls a = Ok s ->
  exists m',
    model_obj s = Some m'
    /\ dict_get (eligible_fld_name (class_labels cls)) (model_fields m')
       = Some (PStr (eligible s))
    /\ (dict_get (reasons_ineligible_fld_name (class_labels cls)) (model_fields m')
        = Some PNone
        <-> eligible s = is_eligible_value (conf s)).
Proof.
  intros Hhook Hmhook Hkeys Hnames Hm Hinit.
  destruct (set_fld_attrs_on_self cls (initial_self cls a)) as [[[] s1]|e] eqn:Hset;
    [|rewrite (init_resolution_raises _ _ _ Hset) in Hinit; discriminate].
  destruct (resolved_state _ _ _ Hset) as (_ & _ & Hconf & Hmo & _).
  rewrite (init_base_eq cls a s1 Hhook Hmhook Hset) in Hinit.
  destruct (check_result (assessed cls s1 [])) as [[[] t]|e] eqn:Hc; [|discriminate].
  pose proof (check_result_state _ _ _ Hc) as ->.
  apply check_result_ok in Hc as (_ & _ & _ & Hiff).
  rewrite Hmo, Hm in Hinit. injection Hinit as <-.
  set (s2 := assessed cls s1 []) in *.
  set (d := reasons_after cls (verbose s1) (fld_attrs s1) (get_required_fields cls)
              (dict_update [] (missing_data_of cls (fld_attrs s1)))) in *.
  assert (Hc2 : conf s2 = conf (initial_self cls a)) by (rewrite <- Hconf; reflexivity).
  assert (He : eligible_fld_name (conf s2) = eligible_fld_name (class_labels cls))
    by (rewrite Hc2; reflexivity).
  assert (Hr : reasons_ineligible_fld_name (conf s2)
               = reasons_ineligible_fld_name (class_labels cls))
    by (rewrite Hc2; reflexivity).
  destruct (written_frame s2 d m) as (_ & _ & Hget_e & Hget_r & _).
  rewrite He, Hr in *. specialize (Hget_r Hnames).
  exists (written s2 d m). cbn [model_obj eligible conf with_model_obj].
  split; [reflexivity|]. split; [exact Hget_e|].
  rewrite Hget_r, Hiff. change (reasons_ineligible s2) with (Some d).
  pose proof (joined_reasons_none d (assessed_reasons_nonempty cls s1 Hkeys)) as Hj.
  split.
  - intros [= H]. apply Hj in H. now rewrite H.
  - intros [= H]. f_equal. now apply Hj.
Qed.

(** The record of the seventy-year-old: the verdict [NO], and a reason. *)
Lemma record_reasons_none_iff_eligible_witness :
  exists m',
    Some (mkModel "SubjectScreening"
            [("age_in_years", PInt 70); ("eligible", PStr NO);
             ("reasons_ineligible", PStr "Age In Years"); ("consented", PBool false)] 0)
    = Some m'
    /\ dict_get "eligible" (model_fields m') = Some (PStr NO)
    /\ (dict_get "reasons_ineligible" (model_fields m') = Some PNone <-> NO = YES).
Proof.
  exact (record_reasons_none_iff_eligible age_class (with_record record_aged_70)
           record_aged_70
           (mkSelf [] None None NO default_labels
              (Some (mkModel "SubjectScreening"
                       [("age_in_years", PInt 70); ("eligible", PStr NO);
                        ("reasons_ineligible", PStr "Age In Years");
                        ("consented", PBool false)] 0))
              (Some [("age_in_years", "Age In Years")])
              [("age_in_years", PInt 70)])
           eq_refl eq_refl eq_refl ltac:(discriminate) eq_refl eq_refl).
Defined.

(** ** Assessing a record again *)

Lemma dict_set_same_value {V} k (v : V) d : dict_get k d = Some v -> dict_set k v d = d.
Proof.
  induction d as [|[k' v'] d IH]; cbn; [discriminate|].
  destruct (String.eqb_spec k' k) as [->|].
  - now intros [= ->].
  - intros H. now rewrite IH.
Qed.

Lemma dict_set_absorb {V} k (v w : V) d : dict_set k v (dict_set k w d) = dict_set k v d.
Proof.
  induction d as [|[k' v'] d IH]; cbn.
  - now rewrite String.eqb_refl.
  - destruct (String.eqb_spec k' k) as [->|Hne]; cbn.
    + now rewrite String.eqb_refl.
    + destruct (String.eqb_spec k' k); [contradiction|]. now rewrite IH.
Qed.

(** Writing the same verdict and reasons onto a record that has them
    changes nothing. *)
Lemma written_twice s d m : written s d (written s d m) = written s d m.
Proof.
  unfold written, model_setattr. cbn [model_class model_fields saves]. f_equal.
  set (e := eligible_fld_name (conf s)). set (r := reasons_ineligible_fld_name (conf s)).
  set (v := PStr (eligible s)). set (j := joined_reasons d). set (D := model_fields m).
  destruct (String.eqb_spec r e) as [->|Hne].
  - now rewrite (dict_set_absorb e j v), (dict_set_idem e j D).
  - rewrite (dict_set_same_value r j).
    + apply dict_set_idem.
    + rewrite dict_get_set_other by congruence. apply dict_get_set_same.
Qed.

Lemma set_fld_attr_on_self_agree cls m' k s m :
  model_obj s = Some m ->
  model_class m' = model_class m ->
  dict_get k (model_fields m') = dict_get k (model_fields m) ->
  set_fld_attr_on_self cls k (with_model_obj (Some m') s) =
  map_state (with_model_obj (Some m')) (set_fld_attr_on_self cls k s).
Proof.
  intros Hm Hc Hk. rewrite !set_fld_attr_on_self_eq. cbn [fld_attrs with_model_obj].
  destruct (lookup_attr cls (fld_attrs s) k); [|reflexivity].
  unfold field_value, model_getattr.
  cbn [model_obj cleaned_data with_model_obj]. rewrite Hm, Hk, Hc.
  destruct (cleaned_data s) as [[|entry d]|].
  - destruct (dict_get k (model_fields m)); reflexivity.
  - destruct (dict_get k (entry :: d)); reflexivity.
  - destruct (dict_get k (model_fields m)); reflexivity.
Qed.

Lemma set_fld_attrs_loop_agree cls m' keys : forall s m,
  model_obj s = Some m ->
  model_class m' = model_class m ->
  (forall k, In k keys -> dict_get k (model_fields m') = dict_get k (model_fields m)) ->
  for_each keys (set_fld_attr_on_self cls) (with_model_obj (Some m') s) =
  map_state (with_model_obj (Some m')) (for_each keys (set_fld_attr_on_self cls) s).
Proof.
  induction keys as [|k keys IH]; intros s m Hm Hc Hk; [reflexivity|].
  cbn [for_each]. unfold bind.
  rewrite (set_fld_attr_on_self_agree cls m' k s m Hm Hc) by (apply Hk; now left).
  destruct (set_fld_attr_on_self cls k s) as [[[] s']|e] eqn:Hs; cbn [map_state];
    [|reflexivity].
  rewrite set_fld_attr_on_self_eq in Hs.
  destruct (lookup_attr cls (fld_attrs s) k); [|discriminate].
  destruct (field_value k s) as [[v s0]|e]; [|discriminate].
  injection Hs as <-. apply (IH _ m); [exact Hm|exact Hc|].
  intros k' Hin. apply Hk. now right.
Qed.

(** X9. With the hooks of the base class, and no required field named
    like the record's eligible or reasons field, assessing the record the
    constructor returned once more changes nothing: the constructor returns
    the same evaluator, holding the same record. *)
Theorem assessing_again_changes_nothing cls a m s m' :
  assess_eligibility cls = assess_eligibility_default ->
  set_fld_attrs_on_model cls = set_fld_attrs_on_model_default ->
  (forall k, In k (dict_keys (get_required_fields cls)) ->
             k <> eligible_fld_name (class_labels cls)
             /\ k <> reasons_ineligible_fld_name (class_labels cls)) ->
  __init__ cls (args_with_record m a) = Ok s ->
  model_obj s = Some m' ->
  __init__ cls (args_with_record m' a) = Ok s.
Proof.
  intros Hhook Hmhook Hkeys Hinit Hm'.
  destruct (set_fld_attrs_on_self cls (initial_self cls (args_with_record m a)))
    as [[[] s1]|e] eqn:Hset;
    [|rewrite (init_resolution_raises _ _ _ Hset) in Hinit; discriminate].
  destruct (resolved_state _ _ _ Hset) as (_ & _ & Hconf & Hmo & _).
  cbn [arg_model_obj args_with_record] in Hmo.
  rewrite (init_base_eq cls _ s1 Hhook Hmhook Hset) in Hinit.
  destruct (check_result (assessed cls s1 [])) as [[[] t]|e] eqn:Hc; [|discriminate].
  rewrite Hmo in Hinit. injection Hinit as <-.
  cbn [model_obj with_model_obj] in Hm'. injection Hm' as <-.
  set (s2 := assessed cls s1 []) in *.
  set (d := reasons_after cls (verbose s1) (fld_attrs s1) (get_required_fields cls)
              (dict_update [] (missing_data_of cls (fld_attrs s1)))) in *.
  set (m' := written s2 d m).
  assert (Hc2 : conf s2 = conf (initial_self cls (args_with_record m a)))
    by (rewrite <- Hconf; reflexivity).
  destruct (written_frame s2 d m) as (Hclass & _ & _ & _ & Hother).
  assert (Hinit' : initial_self cls (args_with_record m' a)
                   = with_model_obj (Some m') (initial_self cls (args_with_record m a)))
    by reflexivity.
  assert (Hagree : forall k, In k (dict_keys (get_required_fields cls)) ->
            dict_get k (model_fields m') = dict_get k (model_fields m)).
  { intros k Hin. destruct (Hkeys k Hin) as [H1 H2]. apply Hother.
    - rewrite Hc2. exact H1.
    - rewrite Hc2. exact H2. }
  pose proof (set_fld_attrs_loop_agree cls m' (dict_keys (get_required_fields cls))
                (initial_self cls (args_with_record m a)) m eq_refl Hclass Hagree) as Hloop.
  fold (set_fld_attrs_on_self cls) in Hloop. rewrite <- Hinit', Hset in Hloop.
  cbn [map_state] in Hloop.
  rewrite (init_base_eq cls _ _ Hhook Hmhook Hloop).
  pose proof (check_result_cong s2 (assessed cls (with_model_obj (Some m') s1) [])
                  eq_refl eq_refl eq_refl) as Hcheck.
  rewrite Hc in Hcheck. cbn [map_state] in Hcheck. rewrite <- Hcheck.
  cbn [model_obj with_model_obj]. f_equal.
  change (written (assessed cls (with_model_obj (Some m') s1) [])
              (reasons_after cls (verbose (with_model_obj (Some m') s1))
                 (fld_attrs (with_model_obj (Some m') s1)) (get_required_fields cls)
                 (dict_update []
                    (missing_data_of cls (fld_attrs (with_model_obj (Some m') s1)))))
              m')
      with (written s2 d (written s2 d m)).
  rewrite written_twice. reflexivity.
Qed.

(** The record of the seventy-year-old, assessed and assessed again. *)
Lemma assessing_again_changes_nothing_witness :
  __init__ age_class (args_with_record record_assessed (with_record record_aged_70))
  = Ok evaluator_of_record.
Proof.
  apply (assessing_again_changes_nothing age_class (with_record record_aged_70)
           record_aged_70 evaluator_of_record record_assessed eq_refl eq_refl).
  - intros k [<-|[]]. split; discriminate.
  - reflexivity.
  - reflexivity.
Defined.

(** ** The label of a result *)

(** X10. Take an evaluator the constructor returned, of a class whose
    [set_fld_attrs_on_model] leaves the verdict, the eligible token and the
    reasons alone, as the hook of the base class does.  Without reasons its
    [display_label] is the eligible label; with reasons it is the ineligible
    label when the verdict is the ineligible token, and else the verdict
    itself (the default token of a pending result).  So, when the eligible
    label is neither the ineligible label nor the verdict, [display_label] is
    the eligible label exactly when the reasons are empty. *)
Theorem display_label_of_result cls a s :
  __init__ cls a = Ok s ->
  keeps_verdict (set_fld_attrs_on_model cls) ->
  display_label s =
  match reasons_ineligible s with
  | Some [] => eligible_display_label (conf s)
  | _ => if (eligible s =? is_ineligible_value (conf s))%string
         then ineligible_display_label (conf s)
         else eligible s
  end
  /\ (eligible_display_label (conf s) <> ineligible_display_label (conf s) ->
      eligible_display_label (conf s) <> eligible s ->
      (display_label s = eligible_display_label (conf s)
       <-> reasons_ineligible s = Some [])).
Proof.
  intros H Hkeeps.
  apply init_ok_kept in H as (s1 & _ & Hc & Hkept).
  destruct (Hkept (or_intror Hkeeps)) as (He & Ht & Hr).
  apply check_result_ok in Hc as (_ & _ & (r & Hsome) & Hiff).
  rewrite <- He, <- Ht, <- Hr in *.
  assert (Hlabel : display_label s =
            match reasons_ineligible s with
            | Some [] => eligible_display_label (conf s)
            | _ => if (eligible s =? is_ineligible_value (conf s))%string
                   then ineligible_display_label (conf s)
                   else eligible s
            end).
  { unfold display_label. rewrite Hsome in *.
    destruct (String.eqb_spec (eligible s) (is_eligible_value (conf s))) as [Heq|Hne].
    - apply Hiff in Heq. injection Heq as ->. reflexivity.
    - destruct r as [|x r]; [|reflexivity]. exfalso. apply Hne. now apply Hiff. }
  split; [exact Hlabel|].
  intros Hlabels Hverdict. rewrite Hlabel, Hsome.
  destruct r as [|x r]; [tauto|].
  split; [|discriminate].
  destruct (eligible s =? is_ineligible_value (conf s))%string; congruence.
Qed.

(** The seventy-year-old is labelled ineligible. *)
Lemma display_label_of_result_witness :
  display_label
    (mkSelf [] None (Some [("age_in_years", PInt 70)]) NO default_labels None
            (Some [("age_in_years", "Age In Years")]) [("age_in_years", PInt 70)])
  = "INELIGIBLE".
Proof.
  exact (proj1 (display_label_of_result age_class
                  (with_cleaned_data [("age_in_years", PInt 70)]) _ eq_refl
                  default_hook_keeps_verdict)).
Defined.

(** ** Nothing to read the values from *)

(** X11. Called with neither a record nor [cleaned_data], the constructor
    of a class that requires a field raises at the first field of the table:
    the attribute error of the module when the class has no such attribute,
    and otherwise the [TypeError] of subscripting [None], which the code
    does not catch. *)
Theorem no_record_and_no_mapping cls a k fc rest :
  arg_model_obj a = None ->
  arg_cleaned_data a = None ->
  get_required_fields cls = (k, fc) :: rest ->
  __init__ cls a =
  Raise (match dict_get k (class_attrs cls) with
         | Some _ => TypeError
         | None => ScreeningEligibilityAttributeError (class_name cls) k
         end).
Proof.
  intros Hm Hd Htable. apply init_resolution_raises.
  unfold set_fld_attrs_on_self. rewrite Htable. cbn [dict_keys map fst for_each].
  unfold bind. rewrite set_fld_attr_on_self_eq.
  unfold lookup_attr, field_value. cbn [fld_attrs initial_self model_obj cleaned_data dict_get].
  rewrite Hm, Hd. now destruct (dict_get k (class_attrs cls)).
Qed.

Lemma no_record_and_no_mapping_witness :
  __init__ age_class no_args = Raise TypeError.
Proof.
  exact (no_record_and_no_mapping age_class no_args "age_in_years"
           (mkFC (Some (ARange 18 65 1)) None false None) [] eq_refl eq_refl eq_refl).
Defined.

(** ** The screening record of a form *)

(** X12. Once [subject_screening] has found the record it is kept: every
    later reading returns the same record without a lookup, whatever the
    database holds by then.  A lookup that finds nothing raises the
    validation error with code "missing_subject_screening" and caches
    nothing; any other exception of the lookup passes through. *)
Theorem subject_screening_is_looked_up_once
        (objects_get later_get : pyval -> model + SubjectScreeningFormValidatorMixin.error)
        (s : SubjectScreeningFormValidatorMixin.t) :
  match SubjectScreeningFormValidatorMixin.subject_screening objects_get s with
  | inl (found, s') =>
      SubjectScreeningFormValidatorMixin.subject_screening later_get s' = inl (found, s')
  | inr e =>
      SubjectScreeningFormValidatorMixin._subject_screening s = None
      /\ match objects_get (SubjectScreeningFormValidatorMixin.screening_identifier s) with
         | inl _ => False
         | inr SubjectScreeningFormValidatorMixin.ObjectDoesNotExist =>
             e = SubjectScreeningFormValidatorMixin.ValidationError
                   SubjectScreeningFormValidatorMixin.message "missing_subject_screening"
         | inr e' => e = e'
         end
  end.
Proof.
  unfold SubjectScreeningFormValidatorMixin.subject_screening.
  destruct s as [[found|] ident]; cbn.
  - reflexivity.
  - destruct (objects_get ident) as [found|[]]; cbn; auto.
Qed.

(** ** When the required fields can be set *)

Lemma getattr_ok_iff cls k s :
  (exists v, getattr cls k s = Ok (v, s)) <-> lookup_attr cls (fld_attrs s) k <> None.
Proof.
  rewrite getattr_eq. destruct (lookup_attr cls (fld_attrs s) k) as [v|].
  - split; [discriminate|]. intros _. now exists v.
  - split; [intros (v & H); discriminate|contradiction].
Qed.

Lemma set_fld_attrs_loop_needs cls keys : forall s s',
  for_each keys (set_fld_attr_on_self cls) s = Ok (tt, s') ->
  forall k, In k keys ->
    lookup_attr cls (fld_attrs s) k <> None /\ exists v, field_value k s = Ok (v, s).
Proof.
  induction keys as [|k0 keys IH]; intros s s' H k Hin; [destruct Hin|].
  cbn [for_each] in H. unfold bind in H. rewrite set_fld_attr_on_self_eq in H.
  destruct (lookup_attr cls (fld_attrs s) k0) as [w|] eqn:Hk0; [|discriminate].
  destruct (field_value k0 s) as [[v0 s0]|e] eqn:Hv0; [|discriminate].
  pose proof (field_value_state _ _ _ _ Hv0) as ->.
  destruct (String.eqb_spec k0 k) as [<-|Hne].
  - split; [congruence|now exists v0].
  - destruct Hin as [Heq|Hin]; [contradiction|].
    destruct (IH _ _ H k Hin) as (Hk & v & Hv). split.
    + unfold lookup_attr in *. cbn [fld_attrs with_fld_attrs] in Hk.
      now rewrite dict_get_set_other in Hk.
    + rewrite field_value_attrs in Hv.
      destruct (field_value k s) as [[w' s1]|e] eqn:Hw; [|discriminate].
      pose proof (field_value_state _ _ _ _ Hw) as ->. now exists w'.
Qed.

(** The evaluator the loop returns is the one it started from with the
    value of each key stored, in the order of the keys. *)
Lemma set_fld_attrs_loop_exact cls keys : forall s s',
  for_each keys (set_fld_attr_on_self cls) s = Ok (tt, s') ->
  exists vs,
    Forall2 (fun k v => field_value k s = Ok (v, s)) keys vs
    /\ s' = with_fld_attrs
              (fold_left (fun a kv => dict_set (fst kv) (snd kv) a)
                         (combine keys vs) (fld_attrs s)) s.
Proof.
  induction keys as [|k keys IH]; intros s s' H.
  - cbn in H. injection H as <-. exists []. split; [constructor|]. now destruct s.
  - cbn [for_each] in H. unfold bind in H. rewrite set_fld_attr_on_self_eq in H.
    destruct (lookup_attr cls (fld_attrs s) k) as [w|]; [|discriminate].
    destruct (field_value k s) as [[v s0]|e] eqn:Hv; [|discriminate].
    pose proof (field_value_state _ _ _ _ Hv) as ->.
    apply IH in H as (vs & Hvs & ->). exists (v :: vs). split.
    + constructor; [exact Hv|].
      clear -Hvs. induction Hvs as [|k' v' keys vs Hk' _ IHvs]; constructor; [|exact IHvs].
      rewrite field_value_attrs in Hk'.
      destruct (field_value k' s) as [[w' s1]|e] eqn:Hw; [|discriminate].
      pose proof (field_value_state _ _ _ _ Hw) as ->. congruence.
    + cbn [combine fold_left fst snd fld_attrs with_fld_attrs]. now destruct s.
Qed.

(** X13. [set_fld_attrs_on_self] returns exactly when every required
    field is an attribute the evaluator can read and has a value to take from
    the record or the mapping.  The evaluator it returns is the one it was
    called on with these values stored as attributes, in the order of the
    table: each required field is an attribute holding its value, every
    other attribute is what it was, and nothing but the attributes has
    changed. *)
Theorem required_fields_are_set_iff cls s :
  ((exists s', set_fld_attrs_on_self cls s = Ok (tt, s'))
   <-> forall k, In k (dict_keys (get_required_fields cls)) ->
         (exists v0, getattr cls k s = Ok (v0, s))
         /\ exists v, field_value k s = Ok (v, s))
  /\ (forall s', set_fld_attrs_on_self cls s = Ok (tt, s') ->
        (exists vs,
            Forall2 (fun k v => field_value k s = Ok (v, s))
                    (dict_keys (get_required_fields cls)) vs
            /\ s' = with_fld_attrs
                      (fold_left (fun a kv => dict_set (fst kv) (snd kv) a)
                                 (combine (dict_keys (get_required_fields cls)) vs)
                                 (fld_attrs s)) s)
        /\ (forall k, In k (dict_keys (get_required_fields cls)) ->
              exists v, field_value k s = Ok (v, s)
                        /\ getattr cls k s' = Ok (v, s'))
        /\ (forall k, ~ In k (dict_keys (get_required_fields cls)) ->
              dict_get k (fld_attrs s') = dict_get k (fld_attrs s))).
Proof.
  split; [split|].
  - intros (s' & H) k Hin.
    destruct (set_fld_attrs_loop_needs cls _ _ _ H k Hin) as (Hk & Hv).
    split; [now apply getattr_ok_iff|exact Hv].
  - intros H. apply set_fld_attrs_loop_total. intros k Hin.
    destruct (H k Hin) as (Hk & Hv). split; [now apply getattr_ok_iff|exact Hv].
  - intros s' H. split; [now apply (set_fld_attrs_loop_exact cls)|].
    apply set_fld_attrs_loop_ok in H as (_ & _ & Hframe & Hset).
    split; [|exact Hframe].
    intros k Hin. destruct (Hset k Hin) as (v & Hv & Hget).
    exists v. split; [exact Hv|]. rewrite getattr_eq. unfold lookup_attr. now rewrite Hget.
Qed.

(** ** A verdict that is not listed *)

(** X14. With the hook of the base class, when the required fields are set
    but the token the assessment ends with (the ineligible one after a
    failed test, else the default one with a missing field, else the eligible
    one) is not in [eligible_values_list], the constructor raises
    [ScreeningEligibilityError]: a token changed without the list makes every
    such verdict an error. *)
Theorem unlisted_token_raises cls a s1 :
  assess_eligibility cls = assess_eligibility_default ->
  set_fld_attrs_on_self cls (initial_self cls a) = Ok (tt, s1) ->
  str_in (if existsb (field_fails cls (fld_attrs s1)) (get_required_fields cls)
          then is_ineligible_value (conf s1)
          else if dict_truthy (missing_data_of cls (fld_attrs s1))
               then eligible_value_default (conf s1)
               else is_eligible_value (conf s1))
         (eligible_values_list (conf s1)) = false ->
  __init__ cls a = Raise (ScreeningEligibilityError InvalidValue).
Proof.
  intros Hhook Hset Hout.
  rewrite init_eq, _assess_eligibility_eq.
  rewrite (assess_required_fields_eq cls _ s1 [] Hset eq_refl eq_refl), Hhook.
  replace (if is_eligible (assessed cls s1 [])
           then assess_eligibility_default (assessed cls s1 [])
           else Ok (tt, assessed cls s1 []))
    with (@Ok (unit * self) (tt, assessed cls s1 []))
    by (now destruct (is_eligible (assessed cls s1 []))).
  unfold check_result.
  change (eligible (assessed cls s1 []))
    with (if existsb (field_fails cls (fld_attrs s1)) (get_required_fields cls)
          then is_ineligible_value (conf s1)
          else if dict_truthy (missing_data_of cls (fld_attrs s1))
               then eligible_value_default (conf s1)
               else is_eligible_value (conf s1)).
  change (conf (assessed cls s1 [])) with (conf s1).
  now rewrite Hout.
Qed.

(** The seventy-year-old with [is_ineligible_value="Ineligible"] and the
    list of the base class. *)
Lemma unlisted_token_raises_witness :
  __init__ age_class (with_ineligible_token [("age_in_years", PInt 70)] "Ineligible")
  = Raise (ScreeningEligibilityError InvalidValue).
Proof.
  exact (unlisted_token_raises age_class
           (with_ineligible_token [("age_in_years", PInt 70)] "Ineligible")
           (with_fld_attrs [("age_in_years", PInt 70)]
              (initial_self age_class
                 (with_ineligible_token [("age_in_years", PInt 70)] "Ineligible")))
           eq_refl eq_refl eq_refl).
Defined.
